(** * AdvancedProblemSolver (backend/ai_solver.py): a shallow embedding

    The solver is a keyword cascade: [solve_general_problem] picks one of six
    handlers by substring tests on the lowercased query, and every handler
    runs its own cascade of substring and regular-expression tests, returning
    a dict with the keys [answer], [explanation], [type] and sometimes one
    more.

    Modelling choices.
    - A Python [str] is a [string]; the text is taken as its UTF-8 bytes, and
      [str.lower], [\d] and [\s] act on the ASCII range (other bytes are left
      alone by [lower] and are neither digits nor blanks).
    - [re.search] is a matcher by derivatives, proved to find exactly the
      words of the pattern ([ReFacts.search_spec]); [re.findall(r'\d+', _)]
      is the list of the maximal runs of digits.
    - A Python [int] is a [Z] ([int(s)] is the unbounded conversion; the
      interpreter's optional cap on the number of digits is not modelled).
    - A Python [float] is a binary64 value of [SpecFloat] (prec 53, emax 1024)
      with round-to-nearest-even; [int / int] is the correctly rounded true
      division and raises [OverflowError] where CPython does; [f'{x:.1f}']
      and [repr] print the exact binary value, correctly rounded.
    - A dict literal is an association list in insertion order.
    - Exceptions are the [Raise] results of [outcome]; the wall clock read by
      [datetime.now()] is the environment of the reader monad [M].

    The callers of the solver in backend/app.py (class [EnhancedChatBot] and
    the routes /chat and /solve) are embedded in [App]: what they get from
    outside (the training file, the pipelines, the TF-IDF index, [random],
    the request) is an input, and what they print is part of the result.

    The file has the embedding first (strings, patterns, floats, the clock,
    the six handlers and the dispatcher), then the notions the specification
    speaks of and the callers, then the properties. *)

From Stdlib Require Import ZArith List Bool Ascii String Lia.
From Stdlib Require Import Numbers.DecimalString.
From Stdlib Require Import Floats.SpecFloat.
Import ListNotations.

Open Scope string_scope.
Open Scope Z_scope.

(* ================================================================== *)
(** ** Characters and strings *)

Module PyStr.

Definition code (c : ascii) : nat := nat_of_ascii c.

(** [c.isdigit()] on ASCII: '0'..'9'. *)
Definition is_digit (c : ascii) : bool :=
  (Nat.leb 48 (code c) && Nat.leb (code c) 57)%bool.

(** [\s] on ASCII: TAB, LF, VT, FF, CR, the separators 0x1C-0x1F, space. *)
Definition is_space (c : ascii) : bool :=
  ((Nat.leb 9 (code c) && Nat.leb (code c) 13)
   || (Nat.leb 28 (code c) && Nat.leb (code c) 32))%bool.

Definition is_upper (c : ascii) : bool :=
  (Nat.leb 65 (code c) && Nat.leb (code c) 90)%bool.

Definition lower_char (c : ascii) : ascii :=
  if is_upper c then ascii_of_nat (code c + 32) else c.

(** [s.lower()] *)
Fixpoint lower (s : string) : string :=
  match s with
  | EmptyString => EmptyString
  | String c s' => String (lower_char c) (lower s')
  end.

(** [s.startswith(p)] *)
Fixpoint startswith (p s : string) : bool :=
  match p, s with
  | EmptyString, _ => true
  | String _ _, EmptyString => false
  | String a p', String b s' => (Ascii.eqb a b && startswith p' s')%bool
  end.

(** [needle in hay] *)
Fixpoint contains (needle hay : string) : bool :=
  (startswith needle hay
   || match hay with
      | EmptyString => false
      | String _ hay' => contains needle hay'
      end)%bool.

(** [c in s] for one character [c]. *)
Fixpoint occurs (c : ascii) (s : string) : bool :=
  match s with
  | EmptyString => false
  | String a s' => (Ascii.eqb a c || occurs c s')%bool
  end.

(** [s.isdigit()], true on the empty string too. *)
Fixpoint all_digits (s : string) : bool :=
  match s with
  | EmptyString => true
  | String c s' => (is_digit c && all_digits s')%bool
  end.

(** [s[-1]], if any. *)
Fixpoint last_char (s : string) : option ascii :=
  match s with
  | EmptyString => None
  | String c EmptyString => Some c
  | String _ s' => last_char s'
  end.

(** [any(keyword in text for keyword in keywords)] *)
Definition any_in (keywords : list string) (text : string) : bool :=
  existsb (fun keyword => contains keyword text) keywords.

(** [sep.join(parts)] *)
Fixpoint join (sep : string) (parts : list string) : string :=
  match parts with
  | [] => ""
  | [p] => p
  | p :: rest => p ++ sep ++ join sep rest
  end.

Fixpoint replicate (n : nat) (c : ascii) : string :=
  match n with
  | O => ""
  | S n' => String c (replicate n' c)
  end.

(** [s.rjust(width, '0')] *)
Definition zfill (width : nat) (s : string) : string :=
  replicate (width - String.length s) "0"%char ++ s.

(** [str(n)] for an int. *)
Definition str_of_int (n : Z) : string :=
  NilZero.string_of_int (Z.to_int n).

Definition digit_value (c : ascii) : Z := Z.of_nat (code c - 48).

Fixpoint int_of_digits_from (acc : Z) (s : string) : Z :=
  match s with
  | EmptyString => acc
  | String c s' => int_of_digits_from (10 * acc + digit_value c) s'
  end.

(** [int(s)] for a run of decimal digits [s] (what [\d+] matches). *)
Definition int_of_digits (s : string) : Z := int_of_digits_from 0 s.

Definition dquote : string := String (ascii_of_nat 34) "".
Definition newline : string := String (ascii_of_nat 10) "".

End PyStr.

(* ================================================================== *)
(** ** Regular expressions: the three patterns of the solver *)

Module Re.

Inductive regex : Type :=
| Fail : regex
| Eps : regex
| Class : (ascii -> bool) -> regex
| Seq : regex -> regex -> regex
| Alt : regex -> regex -> regex
| Star : regex -> regex.

Definition Plus (r : regex) : regex := Seq r (Star r).

Fixpoint nullable (r : regex) : bool :=
  match r with
  | Fail => false
  | Eps => true
  | Class _ => false
  | Seq r1 r2 => (nullable r1 && nullable r2)%bool
  | Alt r1 r2 => (nullable r1 || nullable r2)%bool
  | Star _ => true
  end.

(** Smart constructors keep the derivatives small. *)
Definition seq (r1 r2 : regex) : regex :=
  match r1, r2 with
  | Fail, _ => Fail
  | _, Fail => Fail
  | Eps, _ => r2
  | _, _ => Seq r1 r2
  end.

Definition alt (r1 r2 : regex) : regex :=
  match r1, r2 with
  | Fail, _ => r2
  | _, Fail => r1
  | _, _ => Alt r1 r2
  end.

(** Brzozowski derivative: the words [w] with [c w] in the language. *)
Fixpoint deriv (c : ascii) (r : regex) : regex :=
  match r with
  | Fail => Fail
  | Eps => Fail
  | Class p => if p c then Eps else Fail
  | Seq r1 r2 =>
      if nullable r1
      then alt (seq (deriv c r1) r2) (deriv c r2)
      else seq (deriv c r1) r2
  | Alt r1 r2 => alt (deriv c r1) (deriv c r2)
  | Star r1 => seq (deriv c r1) (Star r1)
  end.

Definition is_fail (r : regex) : bool :=
  match r with Fail => true | _ => false end.

(** [re.match(r, s)] is not None: some prefix of [s] is in the language. *)
Fixpoint match_prefix (r : regex) (s : string) : bool :=
  (nullable r
   || match s with
      | EmptyString => false
      | String c s' =>
          let r' := deriv c r in
          if is_fail r' then false else match_prefix r' s'
      end)%bool.

(** [re.search(r, s)] is not None: a match starts at some position. *)
Fixpoint search (r : regex) (s : string) : bool :=
  (match_prefix r s
   || match s with
      | EmptyString => false
      | String _ s' => search r s'
      end)%bool.

Definition digit : regex := Class PyStr.is_digit.
Definition space : regex := Class PyStr.is_space.
Definition one_of (cs : string) : regex :=
  Class (fun c => PyStr.contains (String c "") cs).

(** [(\d+)\s*[\+\-]\s*(\d+)] *)
Definition add_sub_pattern : regex :=
  Seq (Plus digit) (Seq (Star space) (Seq (one_of "+-") (Seq (Star space) (Plus digit)))).

(** [(\d+)\s*[\*\/]\s*(\d+)] *)
Definition mul_div_pattern : regex :=
  Seq (Plus digit) (Seq (Star space) (Seq (one_of "*/") (Seq (Star space) (Plus digit)))).

(** [re.findall(r'\d+', text)]: the maximal runs of digits, left to right.
    [run] is the run being read, if any. *)
Fixpoint digit_runs (run : option string) (text : string) : list string :=
  match text with
  | EmptyString =>
      match run with Some r => [r] | None => [] end
  | String c text' =>
      if PyStr.is_digit c
      then digit_runs (Some (match run with
                             | Some r => r ++ String c ""
                             | None => String c ""
                             end)) text'
      else match run with
           | Some r => r :: digit_runs None text'
           | None => digit_runs None text'
           end
  end.

Definition findall_digits (text : string) : list string := digit_runs None text.

(** The words of a regular expression. *)
Inductive matches : regex -> string -> Prop :=
| MEps : matches Eps ""
| MClass : forall (p : ascii -> bool) c, p c = true -> matches (Class p) (String c "")
| MSeq : forall r1 r2 s1 s2,
    matches r1 s1 -> matches r2 s2 -> matches (Seq r1 r2) (s1 ++ s2)
| MAltL : forall r1 r2 s, matches r1 s -> matches (Alt r1 r2) s
| MAltR : forall r1 r2 s, matches r2 s -> matches (Alt r1 r2) s
| MStarNil : forall r, matches (Star r) ""
| MStarApp : forall r s1 s2,
    matches r s1 -> matches (Star r) s2 -> matches (Star r) (s1 ++ s2).

(** The shape of both arithmetic patterns: digits, blanks, one operator
    character out of [ops], blanks, digits. *)
Definition operator_pattern (ops : string) : regex :=
  Seq (Plus digit) (Seq (Star space) (Seq (one_of ops) (Seq (Star space) (Plus digit)))).

(** The number of runs of digits in [text], one more when a run is open
    at its start. *)
Fixpoint count_runs (in_run : bool) (text : string) : nat :=
  match text with
  | EmptyString => if in_run then 1 else 0
  | String c text' =>
      if PyStr.is_digit c then count_runs true text'
      else (if in_run then 1 else 0) + count_runs false text'
  end.

End Re.

(* ================================================================== *)
(** ** Exceptions and results *)

Inductive exn : Type :=
| ZeroDivisionError (msg : string)
| OverflowError (msg : string)
| IndexError (msg : string).

(** [str(e)] *)
Definition exn_str (e : exn) : string :=
  match e with
  | ZeroDivisionError msg => msg
  | OverflowError msg => msg
  | IndexError msg => msg
  end.

Inductive outcome (A : Type) : Type :=
| Return (a : A)
| Raise (e : exn).
Arguments Return {A} a.
Arguments Raise {A} e.

Definition obind {A B : Type} (x : outcome A) (k : A -> outcome B) : outcome B :=
  match x with
  | Return a => k a
  | Raise e => Raise e
  end.

(** [xs[i]] on a list. *)
Definition index {A : Type} (xs : list A) (i : nat) : outcome A :=
  match nth_error xs i with
  | Some x => Return x
  | None => Raise (IndexError "list index out of range")
  end.

(* ================================================================== *)
(** ** Floats: binary64, the arithmetic and the formatting Python does *)

Module PyFloat.

Definition prec : Z := 53.
Definition emax : Z := 1024.
Definition float : Type := spec_float.

Definition mul : float -> float -> float := SFmul prec emax.
Definition add : float -> float -> float := SFadd prec emax.

(** The nearest float of an integer; infinite past the largest float. *)
Definition nearest_of_int (n : Z) : float := binary_normalize prec emax n 0 false.

(** The nearest float of the quotient [a / b], [b <> 0]. *)
Definition nearest_of_quotient (a b : Z) : float :=
  let negate := xorb (a <? 0) (b <? 0) in
  if a =? 0 then S754_zero negate
  else
    let '(q, e, l) := SFdiv_core_binary prec emax (Z.abs a) 0 (Z.abs b) 0 in
    binary_round_aux prec emax negate q e l.

Definition is_infinite (f : float) : bool :=
  match f with S754_infinity _ => true | _ => false end.

(** [float(n)] as [float op int] does it. *)
Definition of_int (n : Z) : outcome float :=
  let f := nearest_of_int n in
  if is_infinite f
  then Raise (OverflowError "int too large to convert to float")
  else Return f.

(** [a / b] on ints. *)
Definition int_true_div (a b : Z) : outcome float :=
  if b =? 0 then Raise (ZeroDivisionError "division by zero")
  else
    let f := nearest_of_quotient a b in
    if is_infinite f
    then Raise (OverflowError "integer division result too large for a float")
    else Return f.

(** [math.pi] = 0x400921FB54442D18 *)
Definition pi : float := S754_finite false 7074237752028440 (-51).

Definition eqb (x y : float) : bool :=
  match x, y with
  | S754_zero a, S754_zero b => Bool.eqb a b
  | S754_infinity a, S754_infinity b => Bool.eqb a b
  | S754_finite a m e, S754_finite b n f =>
      (Bool.eqb a b && Pos.eqb m n && Z.eqb e f)%bool
  | _, _ => false
  end.

(** The value [m * 2^e] as a fraction. *)
Definition fraction (m : positive) (e : Z) : Z * Z :=
  if 0 <=? e then (Zpos m * 2 ^ e, 1) else (Zpos m, 2 ^ (- e)).

(** [n / d] rounded to the nearest integer, ties to even. *)
Definition round_div (n d : Z) : Z :=
  let q := n / d in
  let r := n mod d in
  match 2 * r ?= d with
  | Lt => q
  | Gt => q + 1
  | Eq => if Z.even q then q else q + 1
  end.

(** [n / d * 10^j] rounded to the nearest integer, ties to even. *)
Definition scale_round (n d j : Z) : Z :=
  if 0 <=? j then round_div (n * 10 ^ j) d else round_div n (d * 10 ^ (- j)).

Definition sign_str (s : bool) : string := if s then "-" else "".

(** The digits of [N] with a point before the last [k]. *)
Definition point_before_last (k : nat) (N : Z) : string :=
  let s := PyStr.zfill (k + 1) (PyStr.str_of_int N) in
  let i := (String.length s - k)%nat in
  match k with
  | O => s
  | _ => substring 0 i s ++ "." ++ substring i k s
  end.

(** [f'{x:.kf}'] *)
Definition format_fixed (k : nat) (x : float) : string :=
  match x with
  | S754_nan => "nan"
  | S754_infinity s => sign_str s ++ "inf"
  | S754_zero s => sign_str s ++ point_before_last k 0
  | S754_finite s m e =>
      let '(n, d) := fraction m e in
      sign_str s ++ point_before_last k (scale_round n d (Z.of_nat k))
  end.

(** The float nearest to [D * 10^q]. *)
Definition of_decimal (D q : Z) : float :=
  if 0 <=? q then nearest_of_int (D * 10 ^ q)
  else nearest_of_quotient D (10 ^ (- q)).

Definition ndigits (n : Z) : Z := Z.of_nat (String.length (PyStr.str_of_int n)).

(** The [p] with [10^(p-1) <= n/d < 10^p], for [n, d > 0]. *)
Definition decimal_point (n d : Z) : Z :=
  let p0 := ndigits n - ndigits d in
  let reaches := if 0 <=? p0 then d * 10 ^ p0 <=? n else d <=? n * 10 ^ (- p0) in
  if reaches then p0 + 1 else p0.

(** The fewest significant digits [D] (from [k] on, at most [fuel] more
    tries) whose decimal [0.D * 10^p] rounds back to [x]. *)
Fixpoint shortest_digits (fuel : nat) (k : Z) (x : float) (n d p : Z) : Z * Z :=
  let D := scale_round n d (k - p) in
  let '(D', p') := if D =? 10 ^ k then (10 ^ (k - 1), p + 1) else (D, p) in
  match fuel with
  | O => (D', p')
  | S fuel' =>
      if eqb (of_decimal D' (p' - k)) x then (D', p')
      else shortest_digits fuel' (k + 1) x n d p
  end.

(** The layout of [repr]: exponent form from 1e16 up and below 1e-4. *)
Definition layout (digits : string) (p : Z) : string :=
  let k := Z.of_nat (String.length digits) in
  if ((p <=? -4) || (16 <? p))%bool then
    let e := p - 1 in
    let mantissa :=
      match digits with
      | String c EmptyString => digits
      | String c rest => String c ("." ++ rest)
      | EmptyString => digits
      end in
    mantissa ++ "e" ++ (if e <? 0 then "-" else "+")
             ++ PyStr.zfill 2 (PyStr.str_of_int (Z.abs e))
  else if p <=? 0 then
    "0." ++ PyStr.replicate (Z.to_nat (- p)) "0"%char ++ digits
  else if k <=? p then
    digits ++ PyStr.replicate (Z.to_nat (p - k)) "0"%char ++ ".0"
  else
    substring 0 (Z.to_nat p) digits ++ "." ++ substring (Z.to_nat p) (Z.to_nat (k - p)) digits.

(** [repr(x)], which is also [str(x)] and [f'{x}']: the shortest digits
    that read back as [x]; 17 always do. *)
Definition repr (x : float) : string :=
  match x with
  | S754_nan => "nan"
  | S754_infinity s => sign_str s ++ "inf"
  | S754_zero s => sign_str s ++ "0.0"
  | S754_finite s m e =>
      let '(n, d) := fraction m e in
      let '(D, p) := shortest_digits 16 1 (SFabs x) n d (decimal_point n d) in
      sign_str s ++ layout (PyStr.str_of_int D) p
  end.

End PyFloat.

(* ================================================================== *)
(** ** The wall clock: [datetime.now()] and [strftime] *)

Module Datetime.

Record datetime : Type := mk {
  year : Z; month : Z; day : Z;
  hour : Z; minute : Z; second : Z
}.

Definition is_leap (y : Z) : bool :=
  ((y mod 4 =? 0) && (negb (y mod 100 =? 0) || (y mod 400 =? 0)))%bool.

Definition days_before_year (y : Z) : Z :=
  let y' := y - 1 in y' * 365 + y' / 4 - y' / 100 + y' / 400.

Definition days_before_month (y m : Z) : Z :=
  nth (Z.to_nat m) [-1; 0; 31; 59; 90; 120; 151; 181; 212; 243; 273; 304; 334] 0
  + (if ((2 <? m) && is_leap y)%bool then 1 else 0).

Definition toordinal (d : datetime) : Z :=
  days_before_year (year d) + days_before_month (year d) (month d) + day d.

(** Monday is 0. *)
Definition weekday (d : datetime) : Z := (toordinal d + 6) mod 7.

Definition two (n : Z) : string := PyStr.zfill 2 (PyStr.str_of_int n).

(** [%A] *)
Definition day_name (d : datetime) : string :=
  nth (Z.to_nat (weekday d))
      ["Monday"; "Tuesday"; "Wednesday"; "Thursday"; "Friday"; "Saturday"; "Sunday"] "".

(** [%B] *)
Definition month_name (d : datetime) : string :=
  nth (Z.to_nat (month d - 1))
      ["January"; "February"; "March"; "April"; "May"; "June"; "July";
       "August"; "September"; "October"; "November"; "December"] "".

(** [%Y], four digits *)
Definition year_str (d : datetime) : string := PyStr.zfill 4 (PyStr.str_of_int (year d)).

(** [%I] *)
Definition hour12 (d : datetime) : string :=
  let h := hour d mod 12 in two (if h =? 0 then 12 else h).

(** [%p] *)
Definition am_pm (d : datetime) : string := if hour d <? 12 then "AM" else "PM".

(** [strftime('%H:%M:%S')] *)
Definition fmt_HMS (d : datetime) : string :=
  two (hour d) ++ ":" ++ two (minute d) ++ ":" ++ two (second d).

(** [strftime('%I:%M %p')] *)
Definition fmt_IMp (d : datetime) : string :=
  hour12 d ++ ":" ++ two (minute d) ++ " " ++ am_pm d.

(** [strftime('%Y-%m-%d')] *)
Definition fmt_Ymd (d : datetime) : string :=
  year_str d ++ "-" ++ two (month d) ++ "-" ++ two (day d).

(** [strftime('%A, %B %d, %Y')] *)
Definition fmt_long (d : datetime) : string :=
  day_name d ++ ", " ++ month_name d ++ " " ++ two (day d) ++ ", " ++ year_str d.

End Datetime.

(* ================================================================== *)
(** ** Values, dicts and the handler monad *)

Inductive value : Type :=
| VStr (s : string)
| VInt (n : Z)
| VFloat (x : PyFloat.float).

(** A dict literal, keys in insertion order. *)
Definition dict : Type := list (string * value).

(** [d.get(key)] *)
Fixpoint get (d : dict) (key : string) : option value :=
  match d with
  | [] => None
  | (k, v) :: rest => if String.eqb k key then Some v else get rest key
  end.

(** A computation that may read the clock and may raise. *)
Definition M (A : Type) : Type := Datetime.datetime -> outcome A.

Definition ret {A : Type} (a : A) : M A := fun _ => Return a.
Definition lift {A : Type} (x : outcome A) : M A := fun _ => x.
Definition bind {A B : Type} (m : M A) (k : A -> M B) : M B :=
  fun clock => match m clock with
               | Return a => k a clock
               | Raise e => Raise e
               end.
(** [datetime.now()] *)
Definition datetime_now : M Datetime.datetime := fun clock => Return clock.

Definition handler : Type := string -> M dict.

(** A cascade of [if ...: return ...] statements: each step either raises,
    returns a dict ([Some]) or falls through to the next ([None]). *)
Fixpoint first_return (steps : list (outcome (option dict))) : outcome (option dict) :=
  match steps with
  | [] => Return None
  | step :: rest =>
      match step with
      | Raise e => Raise e
      | Return (Some d) => Return (Some d)
      | Return None => first_return rest
      end
  end.

Definition fell_through (step : outcome (option dict)) : Prop := step = Return None.

Notation "x <- c1 ;; c2" := (obind c1 (fun x => c2))
  (at level 61, c1 at next level, right associativity).

(* ================================================================== *)
(** ** class AdvancedProblemSolver *)

Module Solver.

Import PyStr.

(** [extract_number]: the first run of digits as an int, 1 if there is none. *)
Definition extract_number (text : string) : Z :=
  match Re.findall_digits text with
  | first :: _ => int_of_digits first
  | [] => 1
  end.

(** [extract_numbers]: every run of digits as an int. *)
Definition extract_numbers (text : string) : list Z :=
  map int_of_digits (Re.findall_digits text).

(** [sum(map(int, numbers))] *)
Definition sum_ints (numbers : list string) : Z :=
  fold_left Z.add (map int_of_digits numbers) 0.

(** *** solve_math_problem *)

Definition indeterminate_solution : dict :=
  [("answer", VStr "Indeterminate form (0/0)");
   ("explanation", VStr "0 divided by 0 is undefined and considered an indeterminate form in mathematics. It requires limit analysis for proper evaluation.");
   ("type", VStr "mathematics");
   ("details", VStr "Use L'Hôpital's rule or algebraic manipulation for limits")].

Definition infinity_solution : dict :=
  [("answer", VStr "∞ (Infinity)");
   ("explanation", VStr "Infinity represents an unbounded quantity larger than any real number.");
   ("type", VStr "mathematics");
   ("details", VStr "Infinity operations: ∞ + a = ∞, ∞ × ∞ = ∞, a/∞ = 0")].

Definition complex_placeholder : dict :=
  [("answer", VStr "Complex mathematical problem");
   ("explanation", VStr "This requires advanced mathematical analysis.");
   ("type", VStr "mathematics")].

(** The [except Exception as e] clause. *)
Definition error_solution (e : exn) : dict :=
  [("answer", VStr "Unable to solve");
   ("explanation", VStr ("Error in calculation: " ++ exn_str e));
   ("type", VStr "error")].

(** [if '0/0' in problem] *)
Definition math_zero_over_zero (problem : string) : outcome (option dict) :=
  if contains "0/0" problem then Return (Some indeterminate_solution)
  else Return None.

(** [if 'infinity' in problem.lower()] *)
Definition math_infinity (problem : string) : outcome (option dict) :=
  if contains "infinity" (lower problem) then Return (Some infinity_solution)
  else Return None.

Definition addition_solution (numbers : list string) : dict :=
  let result := sum_ints numbers in
  [("answer", VInt result);
   ("explanation", VStr ("Addition: " ++ join " + " numbers ++ " = " ++ str_of_int result));
   ("type", VStr "arithmetic")].

(** Basic arithmetic *)
Definition math_add_sub (problem : string) : outcome (option dict) :=
  if Re.search Re.add_sub_pattern problem then
    let numbers := Re.findall_digits problem in
    if contains "+" problem then
      Return (Some (addition_solution numbers))
    else if contains "-" problem then
      n0 <- index numbers 0 ;;
      n1 <- index numbers 1 ;;
      let result := int_of_digits n0 - int_of_digits n1 in
      Return (Some
        [("answer", VInt result);
         ("explanation", VStr ("Subtraction: " ++ n0 ++ " - " ++ n1 ++ " = " ++ str_of_int result));
         ("type", VStr "arithmetic")])
    else Return None
  else Return None.

(** Multiplication and division *)
Definition math_mul_div (problem : string) : outcome (option dict) :=
  if Re.search Re.mul_div_pattern problem then
    let numbers := Re.findall_digits problem in
    if contains "*" problem then
      n0 <- index numbers 0 ;;
      n1 <- index numbers 1 ;;
      let result := int_of_digits n0 * int_of_digits n1 in
      Return (Some
        [("answer", VInt result);
         ("explanation", VStr ("Multiplication: " ++ n0 ++ " × " ++ n1 ++ " = " ++ str_of_int result));
         ("type", VStr "arithmetic")])
    else if contains "/" problem then
      d <- index numbers 1 ;;
      if negb (String.eqb d "0") then
        n0 <- index numbers 0 ;;
        n1 <- index numbers 1 ;;
        result <- PyFloat.int_true_div (int_of_digits n0) (int_of_digits n1) ;;
        Return (Some
          [("answer", VFloat result);
           ("explanation", VStr ("Division: " ++ n0 ++ " ÷ " ++ n1 ++ " = " ++ PyFloat.repr result));
           ("type", VStr "arithmetic")])
      else Return None
    else Return None
  else Return None.

(** [if 'circle' in problem.lower()] inside the area block *)
Definition math_area_circle (problem : string) : outcome (option dict) :=
  if contains "circle" (lower problem) then
    let radius := extract_number problem in
    squared <- PyFloat.of_int (radius ^ 2) ;;
    let area := PyFloat.mul PyFloat.pi squared in
    Return (Some
      [("answer", VStr (PyFloat.format_fixed 2 area));
       ("explanation", VStr ("Area of circle with radius " ++ str_of_int radius
                             ++ " = π × r² = " ++ PyFloat.format_fixed 2 PyFloat.pi
                             ++ " × " ++ str_of_int radius ++ "²"));
       ("type", VStr "geometry")])
  else Return None.

(** [if 'rectangle' in problem.lower()] inside the area block *)
Definition math_area_rectangle (problem : string) : outcome (option dict) :=
  if contains "rectangle" (lower problem) then
    let numbers := Re.findall_digits problem in
    if (2 <=? List.length numbers)%nat then
      n0 <- index numbers 0 ;;
      n1 <- index numbers 1 ;;
      let area := int_of_digits n0 * int_of_digits n1 in
      Return (Some
        [("answer", VInt area);
         ("explanation", VStr ("Area of rectangle: " ++ n0 ++ " × " ++ n1 ++ " = " ++ str_of_int area));
         ("type", VStr "geometry")])
    else Return None
  else Return None.

(** Area and volume calculations *)
Definition math_area (problem : string) : outcome (option dict) :=
  if contains "area" (lower problem) then
    first_return [math_area_circle problem; math_area_rectangle problem]
  else Return None.

(** Percentage calculations *)
Definition math_percent (problem : string) : outcome (option dict) :=
  if (contains "%" problem || contains "percent" (lower problem))%bool then
    let numbers := Re.findall_digits problem in
    if (2 <=? List.length numbers)%nat then
      n0 <- index numbers 0 ;;
      n1 <- index numbers 1 ;;
      ratio <- PyFloat.int_true_div (int_of_digits n0) (int_of_digits n1) ;;
      hundred <- PyFloat.of_int 100 ;;
      let percentage := PyFloat.mul ratio hundred in
      Return (Some
        [("answer", VStr (PyFloat.format_fixed 1 percentage ++ "%"));
         ("explanation", VStr ("Percentage: (" ++ n0 ++ " ÷ " ++ n1 ++ ") × 100 = "
                               ++ PyFloat.format_fixed 1 percentage ++ "%"));
         ("type", VStr "mathematics")])
    else Return None
  else Return None.

(** The body of the [try]. *)
Definition math_try (problem : string) : outcome (option dict) :=
  first_return
    [math_zero_over_zero problem;
     math_infinity problem;
     math_add_sub problem;
     math_mul_div problem;
     math_area problem;
     math_percent problem].

Definition solve_math_problem : handler := fun problem =>
  match math_try problem with
  | Return (Some solution) => ret solution
  | Return None => ret complex_placeholder
  | Raise e => ret (error_solution e)
  end.

(** *** solve_physics_problem *)

Definition solve_physics_problem : handler := fun problem =>
  let problem_lower := lower problem in
  if contains "velocity" problem_lower then
    ret [("answer", VStr "v = d/t");
         ("explanation", VStr "Velocity = distance ÷ time");
         ("type", VStr "physics");
         ("formula", VStr "v = Δx/Δt")]
  else if contains "acceleration" problem_lower then
    ret [("answer", VStr "a = Δv/Δt");
         ("explanation", VStr "Acceleration = change in velocity ÷ time");
         ("type", VStr "physics");
         ("formula", VStr "a = (v_f - v_i)/t")]
  else if contains "force" problem_lower then
    ret [("answer", VStr "F = m × a");
         ("explanation", VStr "Force = mass × acceleration (Newton's Second Law)");
         ("type", VStr "physics");
         ("formula", VStr "F = ma")]
  else if contains "energy" problem_lower then
    ret [("answer", VStr "E = m × c²");
         ("explanation", VStr "Energy = mass × speed of light squared (Einstein's equation)");
         ("type", VStr "physics");
         ("formula", VStr "E = mc²")]
  else
    ret [("answer", VStr "Physics principle");
         ("explanation", VStr "Applying fundamental physics laws and equations");
         ("type", VStr "physics")].

(** *** solve_programming_problem *)

Definition python_solutions : list (string * string) :=
  [("hello world", "print(" ++ dquote ++ "Hello, World!" ++ dquote ++ ")");
   ("fibonacci",
    join newline
      ["def fib(n):";
       "    if n <= 1:";
       "        return n";
       "    return fib(n-1) + fib(n-2)"]);
   ("factorial",
    join newline
      ["def factorial(n):";
       "    if n == 0:";
       "        return 1";
       "    return n * factorial(n-1)"]);
   ("prime check",
    join newline
      ["def is_prime(n):";
       "    if n < 2:";
       "        return False";
       "    for i in range(2, int(n**0.5)+1):";
       "        if n % i == 0:";
       "            return False";
       "    return True"])].

(** [for key, value in items: if key in text: return ...]: the first item
    whose key occurs in [text]. *)
Definition first_key_in (items : list (string * string)) (text : string)
  : option (string * string) :=
  find (fun item => contains (fst item) text) items.

Definition programming_placeholder : dict :=
  [("answer", VStr "Programming solution");
   ("explanation", VStr "Here's a general approach to solve this programming problem...");
   ("type", VStr "programming")].

Definition solve_programming_problem : handler := fun problem =>
  let problem_lower := lower problem in
  if contains "python" problem_lower then
    match first_key_in python_solutions problem_lower with
    | Some (key, solution) =>
        ret [("answer", VStr ("Python solution for " ++ key));
             ("explanation", VStr solution);
             ("type", VStr "programming");
             ("language", VStr "Python")]
    | None => ret programming_placeholder
    end
  else ret programming_placeholder.

(** *** solve_time_date_problem *)

Definition solve_time_date_problem : handler := fun problem =>
  bind datetime_now (fun now =>
  if contains "current time" (lower problem) then
    ret [("answer", VStr (Datetime.fmt_HMS now));
         ("explanation", VStr ("Current time is " ++ Datetime.fmt_IMp now));
         ("type", VStr "time")]
  else if contains "current date" (lower problem) then
    ret [("answer", VStr (Datetime.fmt_Ymd now));
         ("explanation", VStr ("Today is " ++ Datetime.fmt_long now));
         ("type", VStr "date")]
  else if contains "day of week" (lower problem) then
    ret [("answer", VStr (Datetime.day_name now));
         ("explanation", VStr ("Today is " ++ Datetime.day_name now));
         ("type", VStr "date")]
  else
    ret [("answer", VStr "Time/date information");
         ("explanation", VStr "Based on current datetime calculations");
         ("type", VStr "time_date")]).

(** *** solve_conversion_problem *)

Definition conversion_placeholder : dict :=
  [("answer", VStr "Conversion result");
   ("explanation", VStr "Unit conversion using standard formulas");
   ("type", VStr "conversion")].

(** [fahrenheit = (celsius * 9/5) + 32] *)
Definition to_fahrenheit (celsius : Z) : outcome PyFloat.float :=
  ratio <- PyFloat.int_true_div (celsius * 9) 5 ;;
  offset <- PyFloat.of_int 32 ;;
  Return (PyFloat.add ratio offset).

(** [celsius = (fahrenheit - 32) * 5/9] *)
Definition to_celsius (fahrenheit : Z) : outcome PyFloat.float :=
  PyFloat.int_true_div ((fahrenheit - 32) * 5) 9.

Definition fahrenheit_solution (celsius : Z) (fahrenheit : PyFloat.float) : dict :=
  [("answer", VStr (PyFloat.format_fixed 1 fahrenheit ++ "°F"));
   ("explanation", VStr (str_of_int celsius ++ "°C = (" ++ str_of_int celsius
                         ++ " × 9/5) + 32 = " ++ PyFloat.format_fixed 1 fahrenheit ++ "°F"));
   ("type", VStr "conversion")].

Definition celsius_solution (fahrenheit : Z) (celsius : PyFloat.float) : dict :=
  [("answer", VStr (PyFloat.format_fixed 1 celsius ++ "°C"));
   ("explanation", VStr (str_of_int fahrenheit ++ "°F = (" ++ str_of_int fahrenheit
                         ++ " - 32) × 5/9 = " ++ PyFloat.format_fixed 1 celsius ++ "°C"));
   ("type", VStr "conversion")].

Definition solve_conversion_problem : handler := fun problem =>
  let problem_lower := lower problem in
  if contains "celsius to fahrenheit" problem_lower then
    match extract_numbers problem with
    | celsius :: _ =>
        lift (fahrenheit <- to_fahrenheit celsius ;;
              Return (fahrenheit_solution celsius fahrenheit))
    | [] => ret conversion_placeholder
    end
  else if contains "fahrenheit to celsius" problem_lower then
    match extract_numbers problem with
    | fahrenheit :: _ =>
        lift (celsius <- to_celsius fahrenheit ;;
              Return (celsius_solution fahrenheit celsius))
    | [] => ret conversion_placeholder
    end
  else ret conversion_placeholder.

(** *** solve_logic_puzzle *)

Definition puzzles : list (string * string) :=
  [("what comes next", "Analyzing the pattern...");
   ("logic puzzle", "Applying logical reasoning...");
   ("riddle", "Thinking creatively to solve...")].

Definition solve_logic_puzzle : handler := fun problem =>
  match first_key_in puzzles (lower problem) with
  | Some (_, response) =>
      ret [("answer", VStr "Logical solution");
           ("explanation", VStr response);
           ("type", VStr "logic")]
  | None =>
      ret [("answer", VStr "Analytical solution");
           ("explanation", VStr "Using logical reasoning and pattern recognition");
           ("type", VStr "logic")]
  end.

(** *** solve_general_problem *)

Definition math_keywords : list string :=
  ["calculate"; "solve"; "what is"; "how much"; "math"; "equation"].
Definition physics_keywords : list string :=
  ["velocity"; "acceleration"; "force"; "energy"; "physics"].
Definition programming_keywords : list string :=
  ["code"; "program"; "function"; "algorithm"; "python"; "javascript"].
Definition time_date_keywords : list string :=
  ["time"; "date"; "day"; "week"; "month"; "year"].
Definition conversion_keywords : list string :=
  ["convert"; "feet to meters"; "celsius to fahrenheit"].

Definition solve_general_problem : handler := fun problem =>
  let problem_lower := lower problem in
  if any_in math_keywords problem_lower then solve_math_problem problem
  else if any_in physics_keywords problem_lower then solve_physics_problem problem
  else if any_in programming_keywords problem_lower then solve_programming_problem problem
  else if any_in time_date_keywords problem_lower then solve_time_date_problem problem
  else if any_in conversion_keywords problem_lower then solve_conversion_problem problem
  else solve_logic_puzzle problem.

(** *** setup_problem_solvers: the table [self.solvers] *)

Inductive HandlerCategory : Type :=
| math | physics | programming | logic | time_date | conversion.

Definition solvers (category : HandlerCategory) : handler :=
  match category with
  | math => solve_math_problem
  | physics => solve_physics_problem
  | programming => solve_programming_problem
  | logic => solve_logic_puzzle
  | time_date => solve_time_date_problem
  | conversion => solve_conversion_problem
  end.

End Solver.

(* ================================================================== *)
(** ** The statements of the specification *)

Module Spec.

Import PyStr Solver.

(** The classifier as the specification words it: five keyword sets tried
    in a fixed order on the lowercased query, the first hit wins, and
    [logic] when none hits. *)
Definition priority : list (HandlerCategory * list string) :=
  [(math, math_keywords);
   (physics, physics_keywords);
   (programming, programming_keywords);
   (time_date, time_date_keywords);
   (conversion, conversion_keywords)].

Fixpoint first_hit (table : list (HandlerCategory * list string)) (text : string)
  : HandlerCategory :=
  match table with
  | [] => logic
  | (category, keywords) :: rest =>
      if any_in keywords text then category else first_hit rest text
  end.

Definition classify (query : string) : HandlerCategory :=
  first_hit priority (lower query).

(** A Solution record: the three fields every caller reads. *)
Definition is_solution (d : dict) : bool :=
  match get d "answer", get d "explanation", get d "type" with
  | Some _, Some (VStr _), Some (VStr _) => true
  | _, _, _ => false
  end.




Definition returns_solution (result : outcome dict) : Prop :=
  exists d, result = Return d /\ is_solution d = true.





(** Clock readings to run the examples with. *)
Definition tuesday_afternoon : Datetime.datetime := Datetime.mk 2026 11 3 14 5 9.
Definition new_year_midnight : Datetime.datetime := Datetime.mk 2027 1 1 0 0 0.

(** A one followed by [n] zeros, as text. *)
Definition one_and_zeros (n : nat) : string := String "1"%char (replicate n "0"%char).

End Spec.

(* ================================================================== *)
(** ** Letter case, and the shape of a text and of a Solution *)

Module Case.

Import PyStr.

(** [c.islower()] on ASCII *)
Definition is_lower (c : ascii) : bool :=
  (Nat.leb 97 (code c) && Nat.leb (code c) 122)%bool.

(** A character that [lower] neither changes nor produces. *)
Definition caseless_char (c : ascii) : bool := (negb (is_upper c) && negb (is_lower c))%bool.

Fixpoint caseless_text (s : string) : bool :=
  match s with
  | EmptyString => true
  | String c s' => (caseless_char c && caseless_text s')%bool
  end.

(** A pattern whose character classes do not tell a letter from its
    lowercase. *)
Fixpoint caseless (r : Re.regex) : Prop :=
  match r with
  | Re.Class p => forall c, p (lower_char c) = p c
  | Re.Seq r1 r2 => caseless r1 /\ caseless r2
  | Re.Alt r1 r2 => caseless r1 /\ caseless r2
  | Re.Star r1 => caseless r1
  | _ => True
  end.

End Case.

Module Shape.

Import PyStr Solver.


(** [any(c.isalpha() for c in s)] on ASCII *)
Fixpoint has_letter (s : string) : bool :=
  match s with
  | EmptyString => false
  | String c s' => (is_upper c || Case.is_lower c || has_letter s')%bool
  end.

(** The values of [type] that the handler of a category writes. *)
Definition category_types (category : HandlerCategory) : list string :=
  match category with
  | math => ["mathematics"; "arithmetic"; "geometry"; "error"]
  | physics => ["physics"]
  | programming => ["programming"]
  | logic => ["logic"]
  | time_date => ["time"; "date"; "time_date"]
  | conversion => ["conversion"]
  end.

(** [d['type'] in types] *)
Definition typed_in (types : list string) (d : dict) : bool :=
  match get d "type" with
  | Some (VStr t) => existsb (String.eqb t) types
  | _ => false
  end.

Definition analytical_solution : dict :=
  [("answer", VStr "Analytical solution");
   ("explanation", VStr "Using logical reasoning and pattern recognition");
   ("type", VStr "logic")].

End Shape.

(* ================================================================== *)
(** ** The callers of the solver: class EnhancedChatBot and the routes
       (backend/app.py)

    What the application gets from outside is an input of the model: the
    parsed training file, the sentiment and text-generation pipelines, the
    best match of the TF-IDF index, the draws of [random], the body of the
    request. A call into a library either returns or raises an exception,
    of which the code only prints [str(e)]. *)

Module App.

Import PyStr Solver.

(** A call that returns [a] or raises an [Exception] with [str(e) = message]. *)
Inductive attempt (A : Type) : Type :=
| Done (a : A)
| Failed (message : string).
Arguments Done {A} a.
Arguments Failed {A} message.

Definition abind {A B : Type} (x : attempt A) (k : A -> attempt B) : attempt B :=
  match x with
  | Done a => k a
  | Failed message => Failed message
  end.

(** A value with what was printed on the way, oldest line first. *)
Definition printed (A : Type) : Type := (list string * A)%type.

Definition quiet {A : Type} (a : A) : printed A := ([], a).

Definition then_ {A B : Type} (m : printed A) (k : A -> printed B) : printed B :=
  let '(lines, a) := m in
  let '(lines', b) := k a in
  ((lines ++ lines')%list, b).

(** JSON values: the body of a request, the dicts the bot returns. *)
#[local] Unset Elimination Schemes.
Inductive json : Type :=
| JNull
| JBool (b : bool)
| JInt (n : Z)
| JFloat (x : PyFloat.float)
| JStr (s : string)
| JList (items : list json)
| JObject (fields : list (string * json)).
#[local] Set Elimination Schemes.

(** [type(v).__name__] *)
Definition type_name (v : json) : string :=
  match v with
  | JNull => "NoneType"
  | JBool _ => "bool"
  | JInt _ => "int"
  | JFloat _ => "float"
  | JStr _ => "str"
  | JList _ => "list"
  | JObject _ => "dict"
  end.

(** A dict with string keys, in insertion order. *)
Definition object : Type := list (string * json).

Definition no_attribute (type attribute : string) : string :=
  "'" ++ type ++ "' object has no attribute '" ++ attribute ++ "'".

Fixpoint lookup (fields : object) (key : string) : option json :=
  match fields with
  | [] => None
  | (k, v) :: rest => if String.eqb k key then Some v else lookup rest key
  end.

(** [d[key]] on a dict: [KeyError(key)] prints as the quoted key. *)
Definition getitem (fields : object) (key : string) : attempt json :=
  match lookup fields key with
  | Some v => Done v
  | None => Failed ("'" ++ key ++ "'")
  end.

(** [d.get(key, default)] *)
Definition get_or (fields : object) (key : string) (default : json) : json :=
  match lookup fields key with
  | Some v => v
  | None => default
  end.

Definition json_of_value (v : value) : json :=
  match v with
  | VStr s => JStr s
  | VInt n => JInt n
  | VFloat x => JFloat x
  end.

Definition json_of_dict (d : dict) : json :=
  JObject (map (fun entry => (fst entry, json_of_value (snd entry))) d).

(** [f'{v}'] *)
Definition format_value (v : value) : string :=
  match v with
  | VStr s => s
  | VInt n => str_of_int n
  | VFloat x => PyFloat.repr x
  end.

(** [d[key]] on a Solution. *)
Definition solution_item (d : dict) (key : string) : attempt value :=
  match get d key with
  | Some v => Done v
  | None => Failed ("'" ++ key ++ "'")
  end.

(** [s.lstrip()], [s.rstrip()], [s.strip()], with the blanks of the ASCII
    range. *)
Fixpoint lstrip (s : string) : string :=
  match s with
  | EmptyString => EmptyString
  | String c s' => if is_space c then lstrip s' else s
  end.

Fixpoint rstrip (s : string) : string :=
  match s with
  | EmptyString => EmptyString
  | String c s' =>
      match rstrip s' with
      | EmptyString => if is_space c then EmptyString else String c EmptyString
      | kept => String c kept
      end
  end.

Definition strip (s : string) : string := rstrip (lstrip s).

(** [not s] on a string, [not r] on a string or [None]. *)
Definition is_empty (s : string) : bool :=
  match s with EmptyString => true | _ => false end.

Definition falsy (r : option string) : bool :=
  match r with
  | Some s => is_empty s
  | None => true
  end.

(** [round(x, ndigits)] on a float: the decimal with [ndigits] places
    nearest to the exact value (ties to even), read back as a float. *)
Definition round_to (ndigits : nat) (x : PyFloat.float) : PyFloat.float :=
  match x with
  | S754_finite s m e =>
      let '(n, d) := PyFloat.fraction m e in
      let N := PyFloat.scale_round n d (Z.of_nat ndigits) in
      if N =? 0 then S754_zero s
      else
        let rounded := PyFloat.of_decimal N (- Z.of_nat ndigits) in
        if s then SFopp rounded else rounded
  | _ => x
  end.

(** The literals [0.5], [0.3] and [0.0]. *)
Definition half : PyFloat.float := S754_finite false 4503599627370496 (-53).
Definition three_tenths : PyFloat.float := S754_finite false 5404319552844595 (-54).
Definition zero : PyFloat.float := S754_zero false.

(** [x > y] on floats. *)
Definition greater (x y : PyFloat.float) : bool := SFltb y x.

(** [random.choice(seq)], where [draw n] is what the generator gives for
    [_randbelow(n)], reduced below [n]. *)
Definition choice {A : Type} (draw : nat -> nat) (seq : list A) : attempt A :=
  match seq with
  | [] => Failed "Cannot choose from an empty sequence"
  | _ =>
      match nth_error seq (draw (List.length seq) mod List.length seq)%nat with
      | Some x => Done x
      | None => Failed "list index out of range"
      end
  end.

(** [xs[i]] *)
Definition item {A : Type} (xs : list A) (i : nat) : attempt A :=
  match nth_error xs i with
  | Some x => Done x
  | None => Failed "list index out of range"
  end.

(** *** load_training_data *)

(** One intent of [training_data.json]: its patterns and its responses. *)
Record intent : Type := {
  intent_patterns : list string;
  intent_responses : list string
}.

(** What opening and reading the training file gives: [FileNotFoundError],
    any other exception (a malformed file among them), or the intents. *)
Inductive training_file : Type :=
| NotFound
| Unreadable (message : string)
| Intents (intents : list intent).

Definition fallback_patterns : list string := ["hello"; "hi"; "how are you"].
Definition fallback_responses : list (list string) := [["Hello!"; "Hi there!"; "Hey!"]].

(** The two loops: one entry in [patterns] and one in [responses] for every
    pattern of every intent. *)
Fixpoint collect (intents : list intent) : list string * list (list string) :=
  match intents with
  | [] => ([], [])
  | i :: rest =>
      let '(patterns, responses) := collect rest in
      ((intent_patterns i ++ patterns)%list,
       (map (fun _ => intent_responses i) (intent_patterns i) ++ responses)%list)
  end.

Definition load_training_data (file : training_file)
  : printed (list string * list (list string)) :=
  match file with
  | Intents intents => quiet (collect intents)
  | NotFound =>
      (["❌ training_data.json not found. Using fallback data."],
       (fallback_patterns, fallback_responses))
  | Unreadable message =>
      (["❌ Error loading training data: " ++ message],
       (fallback_patterns, fallback_responses))
  end.

(** *** The bot *)

Record EnhancedChatBot : Type := {
  patterns : list string;
  responses : list (list string);
  (** the pipeline, if it was set up: label and score of a text *)
  sentiment_analyzer : option (string -> attempt (string * PyFloat.float));
  (** the pipeline, if it was set up: the generated text *)
  generator : option (string -> attempt string);
  (** [AdvancedProblemSolver] was imported *)
  problem_solver : bool;
  (** the trained index, if training worked: for a text, [np.argmax] of the
      similarities and the similarity there *)
  tfidf_matrix : option (string -> attempt (nat * PyFloat.float))
}.

(** A [try] around the construction of a part: the part and the line of
    success, or [None] and the line of the error. *)
Definition setup {A : Type} (made : attempt A) (success failure : string)
  : printed (option A) :=
  match made with
  | Done a => ([success], Some a)
  | Failed message => ([failure ++ message], None)
  end.

(** [__init__], from what the outside provides: the training file, what
    building the two pipelines gives, whether [AdvancedProblemSolver] was
    imported, and what fitting the vectorizer on the patterns gives. *)
Definition init (file : training_file)
    (analyzer : attempt (string -> attempt (string * PyFloat.float)))
    (gen : attempt (string -> attempt string))
    (solver_imported : bool)
    (train : list string -> attempt (string -> attempt (nat * PyFloat.float)))
  : printed EnhancedChatBot :=
  then_ (load_training_data file) (fun data =>
  then_ (setup analyzer "✅ Sentiment analyzer initialized successfully!"
           "❌ Error setting up sentiment analyzer: ") (fun sentiment =>
  then_ (setup gen "✅ Text generator initialized successfully!"
           "❌ Error setting up text generator: ") (fun generation =>
  then_ (setup (train (fst data)) "✅ TF-IDF model trained successfully!"
           "❌ Error training TF-IDF: ") (fun index =>
    quiet {| patterns := fst data;
             responses := snd data;
             sentiment_analyzer := sentiment;
             generator := generation;
             problem_solver := solver_imported;
             tfidf_matrix := index |})))).

(** Run a [try] body; on an exception print the line and go on with [None]. *)
Definition or_print {A : Type} (prefix : string) (body : attempt A) : printed (option A) :=
  match body with
  | Done a => quiet (Some a)
  | Failed message => ([prefix ++ message], None)
  end.

Definition get_rule_based_response (bot : EnhancedChatBot) (draw : nat -> nat)
    (user_input : string) : printed (option string) :=
  match tfidf_matrix bot with
  | None => quiet None
  | Some best_match =>
      let body : attempt (option string) :=
        abind (best_match user_input) (fun '(best_match_idx, similarity) =>
          if greater similarity three_tenths then
            abind (item (responses bot) best_match_idx) (fun candidates =>
              abind (choice draw candidates) (fun response => Done (Some response)))
          else Done None) in
      match body with
      | Done response => quiet response
      | Failed message => (["❌ Error in rule-based response: " ++ message], None)
      end
  end.

Definition get_ai_response (bot : EnhancedChatBot) (user_input : string)
  : printed (option string) :=
  match generator bot with
  | Some generate => or_print "❌ Error generating AI response: " (generate user_input)
  | None => quiet None
  end.

Definition fallback_solution : dict :=
  [("answer", VStr "Problem solver not available");
   ("explanation", VStr "The advanced problem solver is currently unavailable. Please try a simpler query.");
   ("type", VStr "fallback")].

Definition solve_problem (bot : EnhancedChatBot) (clock : Datetime.datetime)
    (user_input : string) : printed dict :=
  if problem_solver bot then
    match solve_general_problem user_input clock with
    | Return solution => quiet solution
    | Raise e => (["❌ Error in problem solver: " ++ exn_str e], fallback_solution)
    end
  else quiet fallback_solution.

Definition analyze_sentiment (bot : EnhancedChatBot) (text : string)
  : printed (string * PyFloat.float) :=
  match sentiment_analyzer bot with
  | Some analyze =>
      match analyze text with
      | Done result => quiet result
      | Failed message => (["❌ Error in sentiment analysis: " ++ message], ("NEUTRAL", half))
      end
  | None => quiet ("NEUTRAL", half)
  end.

Definition problem_keywords : list string :=
  ["solve"; "calculate"; "what is"; "how to"; "why does"; "explain"].

Definition canned_responses : list string :=
  ["I'm still learning. Can you rephrase that?";
   "That's interesting! Tell me more.";
   "I'm not sure I understand. Could you explain differently?";
   "Let me think about that... Actually, could you ask me something else?";
   "I'm constantly learning! Could you provide more context?"].

(** The dict built in the [try] of [process_message]. *)
Definition problem_reply (sentiment : string) (confidence : PyFloat.float)
    (problem_solution : dict) : attempt object :=
  abind (solution_item problem_solution "answer") (fun answer =>
  abind (solution_item problem_solution "explanation") (fun explanation =>
  abind (solution_item problem_solution "type") (fun type =>
    Done [("response", JStr ("🤔 " ++ format_value answer ++ newline
                             ++ "💡 " ++ format_value explanation));
          ("type", JStr ("problem_solution_" ++ format_value type));
          ("sentiment", JStr sentiment);
          ("confidence", JFloat (round_to 2 confidence));
          ("solution_details", json_of_dict problem_solution)]))).

Definition reply (response response_type sentiment : string) (confidence : PyFloat.float)
  : object :=
  [("response", JStr response);
   ("type", JStr response_type);
   ("sentiment", JStr sentiment);
   ("confidence", JFloat (round_to 2 confidence))].

(** The part of [process_message] after the problem block. [draw] serves
    the choice among the responses of an intent, [draw'] the final one. *)
Definition converse (bot : EnhancedChatBot) (draw draw' : nat -> nat)
    (user_input sentiment : string) (confidence : PyFloat.float)
  : printed (attempt object) :=
  then_ (get_rule_based_response bot draw user_input) (fun response =>
  then_ (if (falsy response && match generator bot with Some _ => true | None => false end)%bool
         then then_ (get_ai_response bot user_input) (fun generated =>
                quiet (generated, "ai_generated"))
         else quiet (response, "rule_based")) (fun '(response, response_type) =>
    if falsy response then
      quiet (abind (choice draw' canned_responses) (fun canned =>
               Done (reply canned "fallback" sentiment confidence)))
    else
      quiet (Done (reply (match response with Some s => s | None => "" end)
                         response_type sentiment confidence)))).

Definition process_message (bot : EnhancedChatBot) (draw draw' : nat -> nat)
    (clock : Datetime.datetime) (user_input : string) : printed (attempt object) :=
  then_ (analyze_sentiment bot user_input) (fun '(sentiment, confidence) =>
    let is_problem := any_in problem_keywords (lower user_input) in
    if (is_problem && problem_solver bot)%bool then
      then_ (solve_problem bot clock user_input) (fun problem_solution =>
        match problem_reply sentiment confidence problem_solution with
        | Done answer => quiet (Done answer)
        | Failed message =>
            then_ (["❌ Error processing problem: " ++ message], tt) (fun _ =>
              converse bot draw draw' user_input sentiment confidence)
        end)
    else converse bot draw draw' user_input sentiment confidence).

(** *** The routes *)

(** [chatbot]: the bot, or the stand-in built when its construction raised. *)
Inductive chatbot : Type :=
| Enhanced (bot : EnhancedChatBot)
| FallbackChatBot.

Definition fallback_reply : object :=
  [("response", JStr "Chatbot is experiencing technical difficulties. Please try again later.");
   ("type", JStr "error");
   ("sentiment", JStr "NEUTRAL");
   ("confidence", JFloat zero)].

(** [strftime("%Y-%m-%d %H:%M:%S")] *)
Definition timestamp (now : Datetime.datetime) : string :=
  Datetime.fmt_Ymd now ++ " " ++ Datetime.fmt_HMS now.

(** [data.get(key, '').strip()] *)
Definition stripped_field (data : json) (key : string) : attempt string :=
  match data with
  | JObject fields =>
      match get_or fields key (JStr "") with
      | JStr s => Done (strip s)
      | value => Failed (no_attribute (type_name value) "strip")
      end
  | _ => Failed (no_attribute (type_name data) "get")
  end.

(** [round(v, 2)] on a value of the reply. *)
Definition round_json (v : json) : attempt json :=
  match v with
  | JFloat x => Done (JFloat (round_to 2 x))
  | JInt n => Done (JInt n)
  | JBool b => Done (JInt (if b then 1 else 0))
  | _ => Failed ("type " ++ type_name v ++ " doesn't define __round__ method")
  end.

(** POST /solve. [received] is what [request.get_json()] gives, [clock] is
    the time when the solver runs and [now] the time of the timestamp. The
    result is the JSON body and the status. *)
Definition solve_route (bot : chatbot) (received : attempt json)
    (clock now : Datetime.datetime) : printed (json * Z) :=
  let failed message :=
    (["❌ Error in /solve endpoint: " ++ message],
     (JObject [("error", JStr message)], 500)) in
  match abind received (fun data => stripped_field data "problem") with
  | Failed message => failed message
  | Done problem =>
      if is_empty problem then quiet (JObject [("error", JStr "Empty problem")], 400)
      else
        match bot with
        | FallbackChatBot => failed (no_attribute "FallbackChatBot" "solve_problem")
        | Enhanced enhanced =>
            then_ (solve_problem enhanced clock problem) (fun solution =>
              quiet (JObject [("problem", JStr problem);
                              ("solution", json_of_dict solution);
                              ("timestamp", JStr (timestamp now))], 200))
        end
  end.

(** POST /chat *)
Definition chat_route (bot : chatbot) (draw draw' : nat -> nat) (received : attempt json)
    (clock now : Datetime.datetime) : printed (json * Z) :=
  let failed (user_message : string) (message : string) :=
    (["❌ Error in /chat endpoint: " ++ message],
     (JObject [("error", JStr "Internal server error");
               ("user_message", JStr user_message);
               ("bot_response", JStr "Sorry, I encountered an error processing your message.");
               ("response_type", JStr "error");
               ("sentiment", JStr "NEUTRAL");
               ("confidence", JFloat zero);
               ("timestamp", JStr (timestamp now))], 500)) in
  match abind received (fun data => stripped_field data "message") with
  | Failed message => failed "Unknown" message
  | Done user_message =>
      if is_empty user_message then quiet (JObject [("error", JStr "Empty message")], 400)
      else
        then_ (match bot with
               | Enhanced enhanced => process_message enhanced draw draw' clock user_message
               | FallbackChatBot => quiet (Done fallback_reply)
               end) (fun processed =>
          let body :=
            abind processed (fun bot_response =>
              abind (getitem bot_response "response") (fun response =>
              abind (getitem bot_response "type") (fun response_type =>
              abind (getitem bot_response "sentiment") (fun sentiment =>
              abind (getitem bot_response "confidence") (fun confidence =>
              abind (round_json confidence) (fun rounded =>
                Done (JObject
                  [("user_message", JStr user_message);
                   ("bot_response", response);
                   ("response_type", response_type);
                   ("sentiment", sentiment);
                   ("confidence", rounded);
                   ("timestamp", JStr (timestamp now));
                   ("solution_details",
                    get_or bot_response "solution_details" (JObject []))]))))))) in
          match body with
          | Done answer => quiet (answer, 200)
          | Failed message => failed user_message message
          end)
  end.

(** *** Notions for the properties *)



(** The bot as [__init__] leaves it when the training file is missing, with
    the solver imported and no pipeline; [best] is what the index answers. *)
Definition bare_bot (best : string -> attempt (nat * PyFloat.float)) : EnhancedChatBot :=
  snd (init NotFound (Failed "no model") (Failed "no model") true (fun _ => Done best)).

(** A training file of two intents. *)
Definition greeting : intent :=
  {| intent_patterns := ["hello"; "good morning"];
     intent_responses := ["Hello!"; "Nice to see you."] |}.

Definition farewell : intent :=
  {| intent_patterns := ["bye"];
     intent_responses := ["Goodbye!"] |}.

(** The score [0.9]. *)
Definition nine_tenths : PyFloat.float := S754_finite false 8106479329266893 (-53).

End App.

(* ================================================================== *)
(** ** Properties *)

Import PyStr Solver Spec.

(** *** Strings *)

Module StrFacts.

Import Re.

Lemma append_nil_r : forall s : string, s ++ "" = s.
Proof. induction s as [|c s IH]; simpl; [reflexivity|rewrite IH; reflexivity]. Qed.

Lemma append_assoc : forall s1 s2 s3 : string, (s1 ++ s2) ++ s3 = s1 ++ (s2 ++ s3).
Proof. induction s1 as [|c s1 IH]; intros; simpl; [reflexivity|rewrite IH; reflexivity]. Qed.

Lemma append_eq_nil : forall s1 s2 : string, s1 ++ s2 = "" -> s1 = "" /\ s2 = "".
Proof. intros [|c s1] s2 H; simpl in H; [auto|discriminate]. Qed.

Lemma digit_runs_digits :
  forall ds run rest,
    all_digits ds = true ->
    digit_runs (Some run) (ds ++ rest) = digit_runs (Some (run ++ ds)) rest.
Proof.
  induction ds as [|c ds IH]; intros run rest H; simpl in *.
  - rewrite append_nil_r. reflexivity.
  - apply andb_true_iff in H. destruct H as [Hc Hds].
    rewrite Hc. rewrite IH by assumption.
    rewrite append_assoc. reflexivity.
Qed.

Lemma findall_digits_run :
  forall ds rest,
    ds <> "" -> all_digits ds = true ->
    findall_digits (ds ++ rest) = digit_runs (Some ds) rest.
Proof.
  intros [|c ds] rest Hne H; [contradiction|].
  simpl in H. apply andb_true_iff in H. destruct H as [Hc Hds].
  unfold findall_digits. simpl. rewrite Hc.
  rewrite digit_runs_digits by assumption. reflexivity.
Qed.

Lemma findall_digits_over_zero :
  forall ds, ds <> "" -> all_digits ds = true ->
    findall_digits (ds ++ "/0") = [ds; "0"].
Proof.
  intros ds Hne H. rewrite findall_digits_run by assumption. reflexivity.
Qed.

(** A needle whose first character does not occur is not contained. *)
Lemma startswith_occurs :
  forall c needle hay, startswith (String c needle) hay = true -> occurs c hay = true.
Proof.
  intros c needle [|a hay] H; simpl in *; [discriminate|].
  apply andb_true_iff in H. destruct H as [H _].
  rewrite Ascii.eqb_sym, H. reflexivity.
Qed.

Lemma contains_occurs :
  forall c needle hay, contains (String c needle) hay = true -> occurs c hay = true.
Proof.
  intros c needle hay. induction hay as [|a hay IH]; intros H.
  - simpl in H. discriminate.
  - cbn [contains] in H. apply orb_true_iff in H. destruct H as [H|H].
    + eapply startswith_occurs; eassumption.
    + simpl. rewrite (IH H). apply orb_true_r.
Qed.

Lemma not_occurs_not_contains :
  forall c needle hay, occurs c hay = false -> contains (String c needle) hay = false.
Proof.
  intros c needle hay H. destruct (contains (String c needle) hay) eqn:E; [|reflexivity].
  apply contains_occurs in E. congruence.
Qed.

Lemma occurs_app :
  forall c s1 s2, occurs c (s1 ++ s2) = (occurs c s1 || occurs c s2)%bool.
Proof.
  induction s1 as [|a s1 IH]; intros s2; simpl; [reflexivity|].
  rewrite IH, orb_assoc. reflexivity.
Qed.

Lemma digits_not_upper : forall c, is_digit c = true -> is_upper c = false.
Proof.
  intros c H. unfold is_digit, is_upper in *.
  apply andb_true_iff in H. destruct H as [_ H]. apply Nat.leb_le in H.
  apply andb_false_iff. left. apply Nat.leb_gt. lia.
Qed.

Lemma lower_digits : forall ds, all_digits ds = true -> lower ds = ds.
Proof.
  induction ds as [|c ds IH]; intros H; simpl in *; [reflexivity|].
  apply andb_true_iff in H. destruct H as [Hc Hds].
  unfold lower_char. rewrite (digits_not_upper _ Hc), IH by assumption. reflexivity.
Qed.

Lemma lower_app : forall s1 s2, lower (s1 ++ s2) = lower s1 ++ lower s2.
Proof.
  induction s1 as [|c s1 IH]; intros s2; simpl; [reflexivity|rewrite IH; reflexivity].
Qed.

Lemma digits_occurs :
  forall c ds, is_digit c = false -> all_digits ds = true -> occurs c ds = false.
Proof.
  intros c. induction ds as [|a ds IH]; intros Hc H; simpl in *; [reflexivity|].
  apply andb_true_iff in H. destruct H as [Ha Hds].
  rewrite IH by assumption. rewrite orb_false_r.
  destruct (Ascii.eqb a c) eqn:E; [|reflexivity].
  apply Ascii.eqb_eq in E. congruence.
Qed.

(** No "0/0" in [ds ++ "/0"] unless the digits end in 0. *)
Lemma no_zero_over_zero :
  forall ds,
    all_digits ds = true -> last_char ds <> Some "0"%char ->
    contains "0/0" (ds ++ "/0") = false.
Proof.
  induction ds as [|c ds IH]; intros H Hlast.
  - reflexivity.
  - simpl in H. apply andb_true_iff in H. destruct H as [Hc Hds].
    cbn [append contains]. apply orb_false_iff. split.
    + destruct ds as [|c' ds].
      * cbn [append startswith]. destruct (Ascii.eqb "0" c) eqn:E; [|reflexivity].
        apply Ascii.eqb_eq in E. subst c. exfalso. apply Hlast. reflexivity.
      * cbn [append startswith].
        simpl in Hds. apply andb_true_iff in Hds. destruct Hds as [Hc' _].
        destruct (Ascii.eqb "/" c') eqn:E.
        -- apply Ascii.eqb_eq in E. subst c'. discriminate Hc'.
        -- rewrite andb_false_r. reflexivity.
    + apply IH; [assumption|].
      destruct ds as [|c' ds]; [discriminate|]. exact Hlast.
Qed.

End StrFacts.

(** *** The regular expression matcher computes the words of the pattern *)

Module ReFacts.

Import Re StrFacts.

Lemma matches_fail : forall s, ~ matches Fail s.
Proof. intros s H. inversion H. Qed.

Lemma nullable_matches : forall r, nullable r = true <-> matches r "".
Proof.
  induction r as [| |p|r1 IH1 r2 IH2|r1 IH1 r2 IH2|r IH]; simpl.
  - split; [discriminate|intros H; inversion H].
  - split; [constructor|reflexivity].
  - split; [discriminate|intros H; inversion H].
  - rewrite andb_true_iff, IH1, IH2. split.
    + intros [H1 H2]. change "" with ("" ++ ""). constructor; assumption.
    + intros H. inversion H; subst.
      match goal with
      | Heq : _ ++ _ = "" |- _ => apply append_eq_nil in Heq; destruct Heq; subst
      end. auto.
  - rewrite orb_true_iff, IH1, IH2. split.
    + intros [H|H]; [apply MAltL|apply MAltR]; assumption.
    + intros H. inversion H; subst; auto.
  - split; [constructor|reflexivity].
Qed.

Lemma seq_matches : forall r1 r2 s, matches (seq r1 r2) s <-> matches (Seq r1 r2) s.
Proof.
  intros r1 r2 s. split.
  - destruct r1; destruct r2; simpl; intros H;
      try exact H; try (exfalso; exact (matches_fail _ H));
      (change s with ("" ++ s); apply MSeq; [apply MEps | exact H]).
  - intros H. inversion H as [| |? ? s1 s2 H1 H2| | | |]; subst.
    destruct r1; destruct r2; simpl;
      try (exfalso; eapply matches_fail; eassumption);
      try (constructor; assumption);
      inversion H1; subst; simpl; assumption.
Qed.

Lemma alt_matches : forall r1 r2 s, matches (alt r1 r2) s <-> matches (Alt r1 r2) s.
Proof.
  intros r1 r2 s. split.
  - destruct r1; destruct r2; simpl; intros H;
      try exact H;
      try (apply MAltR; exact H); try (apply MAltL; exact H).
  - intros H.
    inversion H; subst; destruct r1; destruct r2; simpl;
      try (exfalso; eapply matches_fail; eassumption);
      try assumption; try (apply MAltL; assumption); try (apply MAltR; assumption).
Qed.

(** A non empty word of [Star r] starts with a non empty word of [r]. *)
Lemma star_cons :
  forall r c s,
    matches (Star r) (String c s) ->
    exists s1 s2, s = s1 ++ s2 /\ matches r (String c s1) /\ matches (Star r) s2.
Proof.
  intros r c s H.
  remember (Star r) as r' eqn:Er. remember (String c s) as w eqn:Ew.
  revert c s Ew.
  induction H as [| | | | | |r0 s1 s2 H1 IH1 H2 IH2]; intros a w Ew; try discriminate.
  inversion Er; subst r0.
  destruct s1 as [|c1 s1].
  - simpl in Ew. apply IH2; [reflexivity|assumption].
  - simpl in Ew. inversion Ew; subst.
    exists s1, s2. auto.
Qed.

(** A non empty word of [Seq r1 r2] starts in [r1] or, when [r1] has the
    empty word, lies in [r2]. *)
Lemma seq_cons :
  forall r1 r2 c s,
    matches (Seq r1 r2) (String c s) ->
    (matches r1 "" /\ matches r2 (String c s))
    \/ exists s1 s2, s = s1 ++ s2 /\ matches r1 (String c s1) /\ matches r2 s2.
Proof.
  intros r1 r2 c s H.
  inversion H as [| |r1' r2' s1 s2 H1 H2 [Er1 Er2] Heq| | | |]; subst.
  destruct s1 as [|c1 s1]; simpl in Heq.
  - left. subst. auto.
  - right. inversion Heq; subst. exists s1, s2. auto.
Qed.

Lemma deriv_matches :
  forall r c s, matches (deriv c r) s <-> matches r (String c s).
Proof.
  induction r as [| |p|r1 IH1 r2 IH2|r1 IH1 r2 IH2|r IH]; intros c s; simpl.
  - split; intros H; inversion H.
  - split; intros H; inversion H.
  - destruct (p c) eqn:Ep; split; intros H.
    + inversion H; subst. constructor. assumption.
    + inversion H; subst. constructor.
    + inversion H.
    + inversion H; subst. congruence.
  - assert (Hseq : matches (seq (deriv c r1) r2) s <->
                   exists s1 s2, s = s1 ++ s2 /\ matches r1 (String c s1) /\ matches r2 s2).
    { rewrite seq_matches. split.
      - intros H. inversion H as [| |? ? s1 s2 H1 H2| | | |]; subst.
        exists s1, s2. rewrite <- IH1. auto.
      - intros (s1 & s2 & -> & H1 & H2). constructor; [apply IH1|]; assumption. }
    destruct (nullable r1) eqn:En.
    + rewrite alt_matches. split.
      * intros H. inversion H; subst.
        -- apply Hseq in H3. destruct H3 as (s1 & s2 & -> & H1 & H2).
           change (String c (s1 ++ s2)) with (String c s1 ++ s2). constructor; assumption.
        -- apply IH2 in H3. change (String c s) with ("" ++ String c s).
           constructor; [apply nullable_matches|]; assumption.
      * intros H. apply seq_cons in H. destruct H as [[H1 H2]|(s1 & s2 & -> & H1 & H2)].
        -- apply MAltR. apply IH2. assumption.
        -- apply MAltL. apply Hseq. exists s1, s2. auto.
    + rewrite Hseq. split.
      * intros (s1 & s2 & -> & H1 & H2).
        change (String c (s1 ++ s2)) with (String c s1 ++ s2). constructor; assumption.
      * intros H. apply seq_cons in H. destruct H as [[H1 H2]|(s1 & s2 & -> & H1 & H2)].
        -- apply nullable_matches in H1. congruence.
        -- exists s1, s2. auto.
  - rewrite alt_matches. split; intros H; inversion H; subst.
    + apply MAltL. apply IH1. assumption.
    + apply MAltR. apply IH2. assumption.
    + apply MAltL. apply IH1. assumption.
    + apply MAltR. apply IH2. assumption.
  - rewrite seq_matches. split.
    + intros H. inversion H as [| |? ? s1 s2 H1 H2| | | |]; subst.
      change (String c (s1 ++ s2)) with (String c s1 ++ s2).
      constructor; [apply IH|]; assumption.
    + intros H. apply star_cons in H. destruct H as (s1 & s2 & -> & H1 & H2).
      constructor; [apply IH|]; assumption.
Qed.

Lemma is_fail_true : forall r, is_fail r = true -> r = Fail.
Proof. destruct r; simpl; intros H; (reflexivity || discriminate). Qed.

(** [match_prefix]: some prefix of the text is a word of [r]. *)
Lemma match_prefix_spec :
  forall s r,
    match_prefix r s = true <-> exists s1 s2, s = s1 ++ s2 /\ matches r s1.
Proof.
  induction s as [|c s IH]; intros r; simpl.
  - rewrite orb_false_r, nullable_matches. split.
    + intros H. exists "", "". auto.
    + intros (s1 & s2 & Heq & H). symmetry in Heq.
      apply append_eq_nil in Heq. destruct Heq; subst. assumption.
  - rewrite orb_true_iff, nullable_matches. split.
    + intros [H|H].
      * exists "", (String c s). auto.
      * destruct (is_fail (deriv c r)) eqn:Ef; [discriminate|].
        apply IH in H. destruct H as (s1 & s2 & -> & H).
        exists (String c s1), s2. split; [reflexivity|].
        apply deriv_matches. assumption.
    + intros (s1 & s2 & Heq & H).
      destruct s1 as [|c1 s1]; [left; assumption|right].
      simpl in Heq. inversion Heq; subst.
      apply deriv_matches in H.
      destruct (is_fail (deriv c1 r)) eqn:Ef.
      * apply is_fail_true in Ef. rewrite Ef in H. inversion H.
      * apply IH. exists s1, s2. auto.
Qed.

(** [search]: some part of the text is a word of [r]. *)
Theorem search_spec :
  forall s r,
    search r s = true <-> exists s0 s1 s2, s = s0 ++ s1 ++ s2 /\ matches r s1.
Proof.
  induction s as [|c s IH]; intros r; simpl; rewrite orb_true_iff.
  - split.
    + intros [H|H]; [|discriminate].
      apply (match_prefix_spec "") in H. destruct H as (s1 & s2 & Heq & H).
      exists "", s1, s2. auto.
    + intros (s0 & s1 & s2 & Heq & H). left.
      apply (match_prefix_spec ""). 
      symmetry in Heq. apply append_eq_nil in Heq. destruct Heq as [-> Heq].
      exists s1, s2. auto.
  - split.
    + intros [H|H].
      * apply (match_prefix_spec (String c s)) in H. destruct H as (s1 & s2 & Heq & H).
        exists "", s1, s2. auto.
      * apply IH in H. destruct H as (s0 & s1 & s2 & -> & H).
        exists (String c s0), s1, s2. auto.
    + intros (s0 & s1 & s2 & Heq & H).
      destruct s0 as [|c0 s0]; simpl in Heq.
      * left. apply (match_prefix_spec (String c s)). exists s1, s2. auto.
      * inversion Heq; subst. right. apply IH. exists s0, s1, s2. auto.
Qed.

Lemma star_digit_all_digits :
  forall s, matches (Star digit) s -> all_digits s = true.
Proof.
  intros s H. remember (Star digit) as r eqn:Er.
  induction H as [| | | | | |r0 s1 s2 H1 _ H2 IH2]; try discriminate.
  - reflexivity.
  - inversion Er; subst r0.
    inversion H1 as [|p c Hp| | | | |]; subst.
    simpl. rewrite Hp. apply IH2. reflexivity.
Qed.

Lemma all_digits_star_digit :
  forall s, all_digits s = true -> matches (Star digit) s.
Proof.
  induction s as [|c s IH]; intros H; simpl in H.
  - constructor.
  - apply andb_true_iff in H. destruct H as [Hc Hs].
    change (String c s) with (String c "" ++ s).
    constructor; [constructor; assumption|auto].
Qed.

Lemma plus_digit_spec :
  forall s, matches (Plus digit) s <-> s <> "" /\ all_digits s = true.
Proof.
  intros s. unfold Plus. split.
  - intros H. inversion H as [| |r1 r2 s1 s2 H1 H2| | | |]; subst.
    inversion H1 as [|p c Hp| | | | |]; subst.
    apply star_digit_all_digits in H2.
    split; [discriminate|]. simpl. rewrite Hp. assumption.
  - intros [Hne H]. destruct s as [|c s]; [contradiction|].
    simpl in H. apply andb_true_iff in H. destruct H as [Hc Hs].
    change (String c s) with (String c "" ++ s).
    constructor; [constructor; assumption|apply all_digits_star_digit; assumption].
Qed.

Lemma operator_pattern_words :
  forall ops s,
    matches (operator_pattern ops) s ->
    exists a ws op ws' b,
      s = a ++ ws ++ String op "" ++ ws' ++ b
      /\ a <> "" /\ all_digits a = true
      /\ b <> "" /\ all_digits b = true
      /\ occurs op ops = true.
Proof.
  intros ops s H. unfold operator_pattern in H.
  inversion H as [| |? ? a s' Ha H'| | | |]; subst.
  inversion H' as [| |? ? ws s'' Hws H''| | | |]; subst.
  inversion H'' as [| |? ? o s''' Ho H'''| | | |]; subst.
  inversion H''' as [| |? ? ws' b Hws' Hb| | | |]; subst.
  inversion Ho as [|p op Hop| | | | |]; subst.
  apply plus_digit_spec in Ha. apply plus_digit_spec in Hb.
  destruct Ha as [Ha1 Ha2]. destruct Hb as [Hb1 Hb2].
  exists a, ws, op, ws', b.
  repeat split; try assumption.
  eapply contains_occurs. exact Hop.
Qed.

Lemma search_operator_occurs :
  forall ops text,
    search (operator_pattern ops) text = true ->
    exists op, occurs op ops = true /\ occurs op text = true.
Proof.
  intros ops text H. apply search_spec in H.
  destruct H as (s0 & s1 & s2 & -> & H).
  apply operator_pattern_words in H.
  destruct H as (a & ws & op & ws' & b & -> & _ & _ & _ & _ & Hop).
  exists op. split; [assumption|].
  rewrite !occurs_app. simpl. rewrite Ascii.eqb_refl. simpl.
  rewrite !orb_true_r. reflexivity.
Qed.

(** *** Counting the runs of digits *)

Lemma digit_runs_length :
  forall text run,
    List.length (digit_runs run text)
    = count_runs (match run with Some _ => true | None => false end) text.
Proof.
  induction text as [|c text IH]; intros run; simpl.
  - destruct run; reflexivity.
  - destruct (is_digit c).
    + rewrite IH. reflexivity.
    + destruct run; simpl; rewrite IH; reflexivity.
Qed.

Lemma count_runs_open : forall text, (count_runs false text <= count_runs true text)%nat.
Proof.
  destruct text as [|c text]; simpl; [lia|]. destruct (is_digit c); lia.
Qed.

Lemma count_runs_true_pos : forall text, (1 <= count_runs true text)%nat.
Proof.
  induction text as [|c text IH]; simpl; [lia|]. destruct (is_digit c); lia.
Qed.

Lemma count_runs_suffix :
  forall x b t, (count_runs false t <= count_runs b (x ++ t))%nat.
Proof.
  induction x as [|c x IH]; intros b t; simpl.
  - destruct b; [apply count_runs_open|lia].
  - destruct (is_digit c).
    + apply IH.
    + specialize (IH false t). lia.
Qed.

(** A run that is open, then a character that is no digit: one run is
    complete before what follows. *)
Lemma count_runs_closed :
  forall y n u,
    is_digit n = false ->
    (1 + count_runs false u <= count_runs true (y ++ String n u))%nat.
Proof.
  induction y as [|c y IH]; intros n u Hn; simpl.
  - rewrite Hn. lia.
  - destruct (is_digit c).
    + apply IH. assumption.
    + pose proof (count_runs_suffix y false (String n u)) as H.
      simpl in H. rewrite Hn in H. simpl in H. lia.
Qed.

(** Where an arithmetic pattern matches there are two runs of digits, so
    [numbers[0]] and [numbers[1]] exist. *)
Lemma search_operator_two_numbers :
  forall ops text,
    (forall op, occurs op ops = true -> is_digit op = false) ->
    search (operator_pattern ops) text = true ->
    (2 <= List.length (findall_digits text))%nat.
Proof.
  intros ops text Hops H. apply search_spec in H.
  destruct H as (s0 & s1 & s2 & -> & H).
  apply operator_pattern_words in H.
  destruct H as (a & ws & op & ws' & b & -> & Ha & Hda & Hb & Hdb & Hop).
  apply Hops in Hop.
  unfold findall_digits. rewrite digit_runs_length.
  destruct a as [|ca a]; [contradiction|].
  destruct b as [|cb b]; [contradiction|].
  simpl in Hda, Hdb.
  apply andb_true_iff in Hda. destruct Hda as [Hca _].
  apply andb_true_iff in Hdb. destruct Hdb as [Hcb _].
  rewrite !append_assoc.
  eapply Nat.le_trans; [|apply count_runs_suffix].
  cbn [append count_runs]. rewrite Hca.
  rewrite <- !append_assoc. rewrite append_assoc.
  change (String op "" ++ ws' ++ String cb b ++ s2)
    with (String op (ws' ++ String cb b ++ s2)).
  rewrite <- append_assoc.
  eapply Nat.le_trans; [|apply count_runs_closed; assumption].
  apply le_n_S.
  eapply Nat.le_trans; [|apply count_runs_suffix].
  cbn [append count_runs]. rewrite Hcb.
  apply count_runs_true_pos.
Qed.

End ReFacts.

(** *** Floats: below [2^1023] nothing rounds to an infinity *)

Module FloatFacts.

Import PyFloat.

















End FloatFacts.

(** What the arithmetic returns and what it raises. *)





Lemma int_of_digits_from_nonneg :
  forall s acc, 0 <= acc -> 0 <= int_of_digits_from acc s.
Proof.
  induction s as [|c s IH]; intros acc H; cbn [int_of_digits_from]; [assumption|].
  apply IH. unfold digit_value.
  pose proof (Nat2Z.is_nonneg (code c - 48)) as Hd. lia.
Qed.

Lemma int_of_digits_nonneg : forall s, 0 <= int_of_digits s.
Proof. intros s. apply int_of_digits_from_nonneg. lia. Qed.

Lemma extract_number_nonneg : forall text, 0 <= extract_number text.
Proof.
  intros text. unfold extract_number.
  destruct (Re.findall_digits text); [lia|apply int_of_digits_nonneg].
Qed.




(** *** The cascade *)

Lemma first_return_fell_through :
  forall step rest, fell_through step -> first_return (step :: rest) = first_return rest.
Proof.
  intros step rest H. unfold fell_through in H. simpl. rewrite H. reflexivity.
Qed.

Lemma first_return_returned :
  forall step rest d, step = Return (Some d) -> first_return (step :: rest) = Return (Some d).
Proof.
  intros step rest d H. simpl. rewrite H. reflexivity.
Qed.

Lemma first_return_some :
  forall steps d,
    first_return steps = Return (Some d) -> In (Return (Some d)) steps.
Proof.
  induction steps as [|step rest IH]; intros d H; simpl in H.
  - discriminate H.
  - destruct step as [[d'|]|e].
    + left. exact H.
    + right. apply IH. exact H.
    + discriminate H.
Qed.



Lemma zero_over_zero_fell_through :
  forall problem, contains "0/0" problem = false -> fell_through (math_zero_over_zero problem).
Proof.
  intros problem H. unfold fell_through, math_zero_over_zero. rewrite H. reflexivity.
Qed.

Lemma infinity_fell_through :
  forall problem,
    contains "infinity" (lower problem) = false -> fell_through (math_infinity problem).
Proof.
  intros problem H. unfold fell_through, math_infinity. rewrite H. reflexivity.
Qed.

(** With fewer than two runs of digits the rectangle and the percentage
    blocks return nothing. *)
Lemma area_rectangle_few_numbers :
  forall problem,
    (List.length (Re.findall_digits problem) < 2)%nat ->
    fell_through (math_area_rectangle problem).
Proof.
  intros problem Hfew. unfold fell_through, math_area_rectangle.
  destruct (contains "rectangle" (lower problem)); [|reflexivity].
  apply Nat.leb_gt in Hfew. cbv zeta. rewrite Hfew. reflexivity.
Qed.

Lemma percent_few_numbers :
  forall problem,
    (List.length (Re.findall_digits problem) < 2)%nat ->
    fell_through (math_percent problem).
Proof.
  intros problem Hfew. unfold fell_through, math_percent.
  destruct (contains "%" problem || contains "percent" (lower problem))%bool; [|reflexivity].
  apply Nat.leb_gt in Hfew. cbv zeta. rewrite Hfew. reflexivity.
Qed.

(** *** The two arithmetic patterns *)

Lemma add_sub_is_operator_pattern : Re.add_sub_pattern = Re.operator_pattern "+-".
Proof. reflexivity. Qed.

Lemma mul_div_is_operator_pattern : Re.mul_div_pattern = Re.operator_pattern "*/".
Proof. reflexivity. Qed.

Lemma operators_are_no_digits :
  forall ops op,
    ops = "+-" \/ ops = "*/" -> occurs op ops = true -> is_digit op = false.
Proof.
  intros ops op [-> | ->] H; cbn [occurs] in H;
    rewrite orb_false_r in H; apply orb_true_iff in H;
    destruct H as [H|H]; apply Ascii.eqb_eq in H; subst op; reflexivity.
Qed.

(** Where [re.search] finds one of the patterns, [re.findall] finds two
    numbers: [numbers[0]] and [numbers[1]] never raise there. *)
Lemma pattern_two_numbers :
  forall problem,
    Re.search Re.add_sub_pattern problem = true
    \/ Re.search Re.mul_div_pattern problem = true ->
    exists n0 n1 rest, Re.findall_digits problem = n0 :: n1 :: rest.
Proof.
  intros problem H.
  assert (Hlen : (2 <= List.length (Re.findall_digits problem))%nat).
  { destruct H as [H|H].
    - rewrite add_sub_is_operator_pattern in H.
      eapply ReFacts.search_operator_two_numbers; [|exact H].
      intros op. apply operators_are_no_digits. left. reflexivity.
    - rewrite mul_div_is_operator_pattern in H.
      eapply ReFacts.search_operator_two_numbers; [|exact H].
      intros op. apply operators_are_no_digits. right. reflexivity. }
  destruct (Re.findall_digits problem) as [|n0 [|n1 rest]]; simpl in Hlen; try lia.
  exists n0, n1, rest. reflexivity.
Qed.

(** *** The math handler: special cases and arithmetic *)

(** C1. Whenever the text contains "0/0", the math handler returns the fixed
    indeterminate-form Solution, whatever else the text holds. *)
Theorem zero_over_zero_is_indeterminate :
  forall problem clock,
    contains "0/0" problem = true ->
    solve_math_problem problem clock = Return indeterminate_solution
    /\ get indeterminate_solution "answer" = Some (VStr "Indeterminate form (0/0)")
    /\ get indeterminate_solution "type" = Some (VStr "mathematics").
Proof.
  intros problem clock H.
  split; [|split; reflexivity].
  unfold solve_math_problem, math_try.
  erewrite first_return_returned; [reflexivity|].
  unfold math_zero_over_zero. rewrite H. reflexivity.
Qed.

Lemma zero_over_zero_is_indeterminate_witness :
  contains "0/0" "what is 0/0 + 7 percent of infinity" = true
  /\ solve_math_problem "what is 0/0 + 7 percent of infinity" tuesday_afternoon
     = Return indeterminate_solution.
Proof.
  split; [reflexivity|].
  apply (zero_over_zero_is_indeterminate "what is 0/0 + 7 percent of infinity"
           tuesday_afternoon).
  reflexivity.
Defined.

(** C2, as the claim states it, fails: "10/0" contains "0/0", so the first
    check of the handler answers and the division block is never reached. *)
Lemma ten_over_zero_is_indeterminate :
  contains "0/0" "10/0" = true
  /\ solve_math_problem "10/0" tuesday_afternoon = Return indeterminate_solution
  /\ solve_math_problem "10/0" tuesday_afternoon <> Return complex_placeholder.
Proof.
  split; [reflexivity|]. split; [reflexivity|].
  vm_compute. discriminate.
Qed.

(** The path of a skipped division: no earlier check answers, the second
    pattern matches, there is no '*', the second run of digits is the
    string "0", and the area and percentage blocks find nothing. *)
Lemma division_skipped :
  forall problem clock,
    fell_through (math_zero_over_zero problem) ->
    fell_through (math_infinity problem) ->
    fell_through (math_add_sub problem) ->
    Re.search Re.mul_div_pattern problem = true ->
    contains "*" problem = false ->
    index (Re.findall_digits problem) 1 = Return "0" ->
    fell_through (math_area problem) ->
    fell_through (math_percent problem) ->
    fell_through (math_mul_div problem)
    /\ solve_math_problem problem clock = Return complex_placeholder.
Proof.
  intros problem clock Hz Hi Ha Hre Hstar Hden Harea Hpct.
  assert (Hmd : fell_through (math_mul_div problem)).
  { unfold fell_through, math_mul_div.
    rewrite Hre, Hstar. cbv zeta.
    destruct (contains "/" problem); [|reflexivity].
    rewrite Hden. reflexivity. }
  split; [exact Hmd|].
  unfold solve_math_problem, math_try.
  rewrite !first_return_fell_through by assumption.
  reflexivity.
Qed.

(** The text [numerator ++ "/0"], for a numerator of digits. *)
Section OverZero.

Variable numerator : string.
Hypothesis digits : all_digits numerator = true.
Hypothesis not_empty : numerator <> "".

Let text : string := numerator ++ "/0".

Lemma over_zero_lower : lower text = text.
Proof.
  unfold text. rewrite StrFacts.lower_app, StrFacts.lower_digits by assumption.
  reflexivity.
Qed.

Lemma over_zero_occurs :
  forall c, is_digit c = false -> c <> "/"%char -> occurs c text = false.
Proof.
  intros c Hc Hslash. unfold text.
  rewrite StrFacts.occurs_app, StrFacts.digits_occurs by assumption.
  cbn [occurs orb].
  destruct (Ascii.eqb "/" c) eqn:E1.
  { apply Ascii.eqb_eq in E1. congruence. }
  destruct (Ascii.eqb "0" c) eqn:E2.
  { apply Ascii.eqb_eq in E2. subst c. discriminate Hc. }
  reflexivity.
Qed.

Lemma over_zero_lacks :
  forall c needle,
    is_digit c = false -> c <> "/"%char -> contains (String c needle) text = false.
Proof.
  intros c needle Hc Hslash.
  apply StrFacts.not_occurs_not_contains. apply over_zero_occurs; assumption.
Qed.

Lemma over_zero_numbers : Re.findall_digits text = [numerator; "0"].
Proof. apply StrFacts.findall_digits_over_zero; assumption. Qed.

Lemma over_zero_no_add_sub : Re.search Re.add_sub_pattern text = false.
Proof.
  destruct (Re.search Re.add_sub_pattern text) eqn:E; [exfalso|reflexivity].
  rewrite add_sub_is_operator_pattern in E.
  apply ReFacts.search_operator_occurs in E.
  destruct E as (op & Hop & Hin).
  cbn [occurs] in Hop. rewrite orb_false_r in Hop.
  apply orb_true_iff in Hop.
  destruct Hop as [Hop|Hop]; apply Ascii.eqb_eq in Hop; subst op;
    rewrite over_zero_occurs in Hin by (reflexivity || discriminate);
    discriminate Hin.
Qed.

Lemma over_zero_matches : Re.matches Re.mul_div_pattern text.
Proof.
  unfold text, Re.mul_div_pattern.
  apply Re.MSeq; [apply ReFacts.plus_digit_spec; auto|].
  change "/0" with ("" ++ "/" ++ "" ++ "0").
  apply Re.MSeq; [apply Re.MStarNil|].
  apply Re.MSeq; [apply Re.MClass; reflexivity|].
  apply Re.MSeq; [apply Re.MStarNil|].
  apply ReFacts.plus_digit_spec. split; [discriminate|reflexivity].
Qed.

Lemma over_zero_mul_div : Re.search Re.mul_div_pattern text = true.
Proof.
  apply ReFacts.search_spec. exists "", text, "". split.
  - simpl. rewrite StrFacts.append_nil_r. reflexivity.
  - apply over_zero_matches.
Qed.

End OverZero.

(** C2, amended. For a numerator of digits that does not end in 0, as in
    "12/0", the text [numerator/0] has no "0/0": the second pattern matches,
    the denominator string is "0", the division is skipped, and the handler
    returns the generic placeholder; nothing is raised. ("10/0" has "0/0" in
    it and gets the indeterminate form.) *)
Theorem zero_denominator_is_skipped :
  forall numerator clock,
    all_digits numerator = true ->
    numerator <> "" ->
    last_char numerator <> Some "0"%char ->
    contains "0/0" (numerator ++ "/0") = false
    /\ index (Re.findall_digits (numerator ++ "/0")) 1 = Return "0"
    /\ fell_through (math_mul_div (numerator ++ "/0"))
    /\ solve_math_problem (numerator ++ "/0") clock = Return complex_placeholder.
Proof.
  intros numerator clock Hdigits Hne Hlast.
  pose proof (StrFacts.no_zero_over_zero numerator Hdigits Hlast) as Hz.
  pose proof (over_zero_numbers numerator Hdigits Hne) as Hnum.
  pose proof (over_zero_lower numerator Hdigits) as Hlow.
  assert (Hden : index (Re.findall_digits (numerator ++ "/0")) 1 = Return "0").
  { rewrite Hnum. reflexivity. }
  split; [exact Hz|]. split; [exact Hden|].
  apply division_skipped.
  - apply zero_over_zero_fell_through. exact Hz.
  - apply infinity_fell_through. rewrite Hlow.
    apply over_zero_lacks; [assumption|reflexivity|discriminate].
  - unfold fell_through, math_add_sub.
    rewrite (over_zero_no_add_sub numerator Hdigits). reflexivity.
  - apply over_zero_mul_div; assumption.
  - apply over_zero_lacks; [assumption|reflexivity|discriminate].
  - exact Hden.
  - unfold fell_through, math_area. rewrite Hlow.
    rewrite over_zero_lacks; [reflexivity|assumption|reflexivity|discriminate].
  - unfold fell_through, math_percent. rewrite Hlow.
    rewrite !over_zero_lacks; [reflexivity|assumption|reflexivity|discriminate
                               |assumption|reflexivity|discriminate].
Qed.

Lemma zero_denominator_is_skipped_witness :
  solve_math_problem "12/0" tuesday_afternoon = Return complex_placeholder.
Proof.
  apply (zero_denominator_is_skipped "12" tuesday_afternoon);
    [reflexivity | discriminate | discriminate].
Defined.



Example what_is_2_plus_3 :
  solve_math_problem "what is 2+3" tuesday_afternoon
  = Return [("answer", VInt 5);
            ("explanation", VStr "Addition: 2 + 3 = 5");
            ("type", VStr "arithmetic")].
Proof. reflexivity. Qed.

Example sum_of_12_3_5 :
  solve_math_problem "12+3+5" tuesday_afternoon
  = Return [("answer", VInt 20);
            ("explanation", VStr "Addition: 12 + 3 + 5 = 20");
            ("type", VStr "arithmetic")].
Proof. reflexivity. Qed.

(** The matched pair is not what is added: a third number counts too. *)
Example stray_number_is_added :
  solve_math_problem "room 7: what is 2+3" tuesday_afternoon
  = Return [("answer", VInt 12);
            ("explanation", VStr "Addition: 7 + 2 + 3 = 12");
            ("type", VStr "arithmetic")].
Proof. reflexivity. Qed.

(** *** The classifier *)

(** The [if]/[elif] chain is a dispatch on the category. *)
Lemma dispatch_by_category :
  forall problem clock,
    solve_general_problem problem clock = solvers (classify problem) problem clock.
Proof.
  intros problem clock.
  unfold solve_general_problem, classify, priority, first_hit.
  destruct (any_in math_keywords (lower problem)); [reflexivity|].
  destruct (any_in physics_keywords (lower problem)); [reflexivity|].
  destruct (any_in programming_keywords (lower problem)); [reflexivity|].
  destruct (any_in time_date_keywords (lower problem)); [reflexivity|].
  destruct (any_in conversion_keywords (lower problem)); reflexivity.
Qed.


(** The category is decided by the first keyword set that hits. *)
Lemma first_hit_skips :
  forall category keywords rest text,
    any_in keywords text = false ->
    first_hit ((category, keywords) :: rest) text = first_hit rest text.
Proof.
  intros category keywords rest text H. simpl. rewrite H. reflexivity.
Qed.

Lemma first_hit_takes :
  forall category keywords rest text,
    any_in keywords text = true ->
    first_hit ((category, keywords) :: rest) text = category.
Proof.
  intros category keywords rest text H. simpl. rewrite H. reflexivity.
Qed.

Lemma classify_logic_iff :
  forall query,
    classify query = logic <->
    forallb (fun entry => negb (any_in (snd entry) (lower query))) priority = true.
Proof.
  intros query. unfold classify, priority, first_hit, forallb, snd.
  destruct (any_in math_keywords (lower query));
    destruct (any_in physics_keywords (lower query));
    destruct (any_in programming_keywords (lower query));
    destruct (any_in time_date_keywords (lower query));
    destruct (any_in conversion_keywords (lower query));
    simpl; split; intro H; try reflexivity; discriminate.
Qed.

Example casing_is_ignored :
  classify "SOLVE this" = math /\ classify "The FORCE" = physics
  /\ classify "a Python loop" = programming /\ classify "which DAY" = time_date
  /\ classify "Convert 3 feet" = conversion /\ classify "a riddle" = logic.
Proof. repeat split; reflexivity. Qed.

(** *** The conversion handler *)






Example body_temperature :
  solve_conversion_problem "Fahrenheit to Celsius: 100" tuesday_afternoon
  = Return [("answer", VStr "37.8°C");
            ("explanation", VStr "100°F = (100 - 32) × 5/9 = 37.8°C");
            ("type", VStr "conversion")].
Proof. reflexivity. Qed.

(** *** Exceptions in the math handler *)

(** A zero denominator in the percentage block raises inside the [try]. *)
Example percent_of_zero_raises :
  math_try "50 percent of 0" = Raise (ZeroDivisionError "division by zero").
Proof. reflexivity. Qed.

(** So does a denominator written "00", which the string test of the
    division block lets through. *)
Example double_zero_denominator_raises :
  math_try "7/00" = Raise (ZeroDivisionError "division by zero").
Proof. reflexivity. Qed.

(** So does a radius whose square is past the largest float. *)
Example huge_circle_raises :
  math_try ("area circle " ++ one_and_zeros 200)
  = Raise (OverflowError "int too large to convert to float").
Proof. vm_compute. reflexivity. Qed.

Ltac split_step :=
  repeat first
    [ progress cbn [obind]
    | match goal with
      | |- context [if ?b then _ else _] => destruct b
      | |- context [index ?l ?n] => destruct (index l n)
      | |- context [PyFloat.int_true_div ?a ?b] => destruct (PyFloat.int_true_div a b)
      | |- context [PyFloat.of_int ?a] => destruct (PyFloat.of_int a)
      | |- context [first_key_in ?t ?s] => destruct (first_key_in t s) as [[? ?]|]
      end ].

Ltac returned_solution :=
  let H := fresh "H" in
  intros H; first [discriminate H | inversion H; reflexivity].








(** *** Every handler but one always returns a Solution *)

Lemma zero_over_zero_solution :
  forall problem d, math_zero_over_zero problem = Return (Some d) -> is_solution d = true.
Proof. intros problem d. unfold math_zero_over_zero. split_step; returned_solution. Qed.

Lemma infinity_solution_ok :
  forall problem d, math_infinity problem = Return (Some d) -> is_solution d = true.
Proof. intros problem d. unfold math_infinity. split_step; returned_solution. Qed.

Lemma add_sub_solution :
  forall problem d, math_add_sub problem = Return (Some d) -> is_solution d = true.
Proof.
  intros problem d. unfold math_add_sub, addition_solution. cbv zeta.
  split_step; returned_solution.
Qed.

Lemma mul_div_solution :
  forall problem d, math_mul_div problem = Return (Some d) -> is_solution d = true.
Proof.
  intros problem d. unfold math_mul_div. cbv zeta.
  split_step; returned_solution.
Qed.

Lemma area_solution :
  forall problem d, math_area problem = Return (Some d) -> is_solution d = true.
Proof.
  intros problem d. unfold math_area, math_area_circle, math_area_rectangle, first_return.
  cbv zeta. split_step; returned_solution.
Qed.

Lemma percent_solution :
  forall problem d, math_percent problem = Return (Some d) -> is_solution d = true.
Proof.
  intros problem d. unfold math_percent. cbv zeta.
  split_step; returned_solution.
Qed.

Lemma math_try_solution :
  forall problem d, math_try problem = Return (Some d) -> is_solution d = true.
Proof.
  intros problem d H. apply first_return_some in H.
  simpl in H.
  destruct H as [H|[H|[H|[H|[H|[H|[]]]]]]].
  - eapply zero_over_zero_solution; eauto.
  - eapply infinity_solution_ok; eauto.
  - eapply add_sub_solution; eauto.
  - eapply mul_div_solution; eauto.
  - eapply area_solution; eauto.
  - eapply percent_solution; eauto.
Qed.

Lemma math_returns_solution :
  forall problem clock, returns_solution (solve_math_problem problem clock).
Proof.
  intros problem clock. unfold returns_solution, solve_math_problem.
  destruct (math_try problem) as [[d|]|e] eqn:E.
  - exists d. split; [reflexivity|]. eapply math_try_solution; eauto.
  - eexists. split; reflexivity.
  - eexists. split; reflexivity.
Qed.

Lemma physics_returns_solution :
  forall problem clock, returns_solution (solve_physics_problem problem clock).
Proof.
  intros problem clock. unfold returns_solution, solve_physics_problem. cbv zeta.
  split_step; eexists; split; reflexivity.
Qed.

Lemma programming_returns_solution :
  forall problem clock, returns_solution (solve_programming_problem problem clock).
Proof.
  intros problem clock. unfold returns_solution, solve_programming_problem. cbv zeta.
  split_step; eexists; split; reflexivity.
Qed.

Lemma time_date_returns_solution :
  forall problem clock, returns_solution (solve_time_date_problem problem clock).
Proof.
  intros problem clock.
  unfold returns_solution, solve_time_date_problem, bind, datetime_now.
  split_step; eexists; split; reflexivity.
Qed.

Lemma logic_returns_solution :
  forall problem clock, returns_solution (solve_logic_puzzle problem clock).
Proof.
  intros problem clock. unfold returns_solution, solve_logic_puzzle.
  split_step; eexists; split; reflexivity.
Qed.

(** The conversion handler has no [try]: it returns a Solution or lets the
    [OverflowError] of its division out. *)
Lemma conversion_returns_or_overflows :
  forall problem clock,
    returns_solution (solve_conversion_problem problem clock)
    \/ solve_conversion_problem problem clock
       = Raise (OverflowError "integer division result too large for a float").
Proof.
  intros problem clock.
  unfold returns_solution, solve_conversion_problem, lift, ret. cbv zeta.
  destruct (contains "celsius to fahrenheit" (lower problem)).
  - destruct (extract_numbers problem) as [|first rest].
    + left. eexists. split; reflexivity.
    + unfold to_fahrenheit, PyFloat.int_true_div.
      change (5 =? 0) with false. cbv iota.
      destruct (PyFloat.is_infinite (PyFloat.nearest_of_quotient (first * 9) 5)).
      * right. reflexivity.
      * left. eexists. split; reflexivity.
  - destruct (contains "fahrenheit to celsius" (lower problem)).
    + destruct (extract_numbers problem) as [|first rest].
      * left. eexists. split; reflexivity.
      * unfold to_celsius, PyFloat.int_true_div.
        change (9 =? 0) with false. cbv iota.
        destruct (PyFloat.is_infinite (PyFloat.nearest_of_quotient ((first - 32) * 5) 9)).
        -- right. reflexivity.
        -- left. eexists. split; reflexivity.
    + left. eexists. split; reflexivity.
Qed.

(** Whatever the classifier selects other than [conversion], the caller gets
    a Solution. *)
Lemma general_returns_solution_outside_conversion :
  forall problem clock,
    classify problem <> conversion ->
    returns_solution (solve_general_problem problem clock).
Proof.
  intros problem clock H.
  rewrite dispatch_by_category.
  destruct (classify problem); simpl.
  - apply math_returns_solution.
  - apply physics_returns_solution.
  - apply programming_returns_solution.
  - apply logic_returns_solution.
  - apply time_date_returns_solution.
  - contradiction H. reflexivity.
Qed.

(** In all, a call returns a Solution or raises the [OverflowError] of a
    conversion. *)
Lemma general_returns_or_overflows :
  forall problem clock,
    returns_solution (solve_general_problem problem clock)
    \/ (classify problem = conversion
        /\ solve_general_problem problem clock
           = Raise (OverflowError "integer division result too large for a float")).
Proof.
  intros problem clock.
  destruct (classify problem) eqn:E;
    try (left; apply general_returns_solution_outside_conversion; congruence).
  rewrite dispatch_by_category, E. simpl.
  destruct (conversion_returns_or_overflows problem clock) as [H|H]; auto.
Qed.

(** C7 fails on the code: a long integer after "celsius to fahrenheit" is
    classified as a conversion, and the conversion handler, which has no
    [try], lets the [OverflowError] of [celsius * 9/5] reach the caller of
    [solve_general_problem]. *)
Theorem general_problem_can_raise :
  forall clock,
    classify ("celsius to fahrenheit " ++ one_and_zeros 400) = conversion
    /\ solve_general_problem ("celsius to fahrenheit " ++ one_and_zeros 400) clock
       = Raise (OverflowError "integer division result too large for a float").
Proof.
  intros clock. vm_compute. split; reflexivity.
Qed.

(** *** The physics handler *)

(** C8. The physics handler returns a Solution that depends on the text
    alone: two calls on one text agree, whatever the clock reads. *)
Theorem physics_is_deterministic :
  forall problem clock1 clock2,
    solve_physics_problem problem clock1 = solve_physics_problem problem clock2
    /\ exists solution, solve_physics_problem problem clock1 = Return solution.
Proof.
  intros problem clock1 clock2. split.
  - unfold solve_physics_problem. cbv zeta. split_step; reflexivity.
  - destruct (physics_returns_solution problem clock1) as [d [H _]].
    exists d. exact H.
Qed.

(** The time handler, in contrast, reads the clock. *)
Example time_depends_on_clock :
  solve_time_date_problem "current time" tuesday_afternoon
  <> solve_time_date_problem "current time" new_year_midnight.
Proof. vm_compute. discriminate. Qed.

(** *** The area of a circle *)




Example circle_without_radius :
  solve_math_problem "area of a circle" tuesday_afternoon
  = Return [("answer", VStr "3.14");
            ("explanation", VStr "Area of circle with radius 1 = π × r² = 3.14 × 1²");
            ("type", VStr "geometry")].
Proof. reflexivity. Qed.

(** *** Too few numbers *)



(** The same without looking at the path: with fewer than two integers no
    pattern can match and no "0/0" can occur, so unless the text says
    "infinity" or asks for the area of a circle, the placeholder is all the
    handler returns. *)
Lemma startswith_split :
  forall p s, startswith p s = true -> exists rest, s = p ++ rest.
Proof.
  induction p as [|a p IH]; intros s H.
  - exists s. reflexivity.
  - destruct s as [|b s]; simpl in H; [discriminate|].
    apply andb_true_iff in H. destruct H as [Hab H].
    apply Ascii.eqb_eq in Hab. subst b.
    destruct (IH s H) as [rest ->]. exists rest. reflexivity.
Qed.

Lemma contains_split :
  forall needle hay,
    contains needle hay = true -> exists before rest, hay = before ++ needle ++ rest.
Proof.
  intros needle. induction hay as [|c hay IH]; intros H; cbn [contains] in H.
  - apply orb_true_iff in H. destruct H as [H|H]; [|discriminate].
    apply startswith_split in H. destruct H as [rest ->]. exists "", rest. reflexivity.
  - apply orb_true_iff in H. destruct H as [H|H].
    + apply startswith_split in H. destruct H as [rest ->]. exists "", rest. reflexivity.
    + destruct (IH H) as (before & rest & ->).
      exists (String c before), rest. reflexivity.
Qed.

Lemma zero_over_zero_has_pattern :
  forall problem,
    contains "0/0" problem = true -> Re.search Re.mul_div_pattern problem = true.
Proof.
  intros problem H. apply contains_split in H. destruct H as (before & rest & ->).
  apply ReFacts.search_spec. exists before, "0/0", rest. split; [reflexivity|].
  apply (over_zero_matches "0"); [reflexivity|discriminate].
Qed.

Lemma few_numbers_placeholder :
  forall problem clock,
    (List.length (Re.findall_digits problem) < 2)%nat ->
    contains "infinity" (lower problem) = false ->
    (contains "area" (lower problem) && contains "circle" (lower problem))%bool = false ->
    solve_math_problem problem clock = Return complex_placeholder.
Proof.
  intros problem clock Hfew Hinf Hcircle.
  assert (Hno : forall pattern,
             pattern = Re.add_sub_pattern \/ pattern = Re.mul_div_pattern ->
             Re.search pattern problem = false).
  { intros pattern Hp. destruct (Re.search pattern problem) eqn:E; [exfalso|reflexivity].
    assert (Hsome : Re.search Re.add_sub_pattern problem = true
                    \/ Re.search Re.mul_div_pattern problem = true).
    { destruct Hp as [-> | ->]; auto. }
    destruct (pattern_two_numbers problem Hsome) as (n0 & n1 & rest & Hnum).
    rewrite Hnum in Hfew. simpl in Hfew. lia. }
  assert (Hz : contains "0/0" problem = false).
  { destruct (contains "0/0" problem) eqn:E; [|reflexivity].
    apply zero_over_zero_has_pattern in E.
    rewrite (Hno _ (or_intror eq_refl)) in E. discriminate E. }
  unfold solve_math_problem, math_try.
  rewrite (first_return_fell_through _ _ (zero_over_zero_fell_through _ Hz)).
  rewrite (first_return_fell_through _ _ (infinity_fell_through _ Hinf)).
  rewrite first_return_fell_through
    by (unfold fell_through, math_add_sub; rewrite (Hno _ (or_introl eq_refl)); reflexivity).
  rewrite first_return_fell_through
    by (unfold fell_through, math_mul_div; rewrite (Hno _ (or_intror eq_refl)); reflexivity).
  rewrite first_return_fell_through.
  - rewrite (first_return_fell_through _ _ (percent_few_numbers _ Hfew)). reflexivity.
  - unfold fell_through, math_area.
    destruct (contains "area" (lower problem)); [|reflexivity].
    simpl in Hcircle.
    rewrite first_return_fell_through
      by (unfold fell_through, math_area_circle; rewrite Hcircle; reflexivity).
    rewrite (first_return_fell_through _ _ (area_rectangle_few_numbers _ Hfew)).
    reflexivity.
Qed.

(* ================================================================== *)
(** ** More of the solver *)

(** *** The other arithmetic branches *)

Lemma contains_char : forall c s, contains (String c "") s = occurs c s.
Proof.
  intros c. induction s as [|a s IH]; [reflexivity|].
  cbn [contains startswith occurs]. rewrite IH.
  rewrite andb_true_r, Ascii.eqb_sym. reflexivity.
Qed.





















(** X8. A text with the word infinity, in any letter case, gets one of the two
    fixed answers of the math handler (the indeterminate form if it also has
    [0/0]), whatever arithmetic it holds. *)
Theorem infinity_comes_before_arithmetic :
  forall problem clock,
    contains "infinity" (lower problem) = true ->
    solve_math_problem problem clock
    = Return (if contains "0/0" problem then indeterminate_solution else infinity_solution).
Proof.
  intros problem clock Hi. unfold solve_math_problem, math_try.
  destruct (contains "0/0" problem) eqn:Hz.
  - erewrite first_return_returned; [reflexivity|].
    unfold math_zero_over_zero. rewrite Hz. reflexivity.
  - rewrite (first_return_fell_through _ _ (zero_over_zero_fell_through _ Hz)).
    erewrite first_return_returned; [reflexivity|].
    unfold math_infinity. rewrite Hi. reflexivity.
Qed.

Lemma infinity_comes_before_arithmetic_witness :
  solve_math_problem "what is Infinity + 1" tuesday_afternoon = Return infinity_solution.
Proof.
  apply (infinity_comes_before_arithmetic "what is Infinity + 1" tuesday_afternoon).
  reflexivity.
Defined.

Module CaseFacts.

Import Case.

Lemma lower_char_code :
  forall c, code (lower_char c) = if is_upper c then (code c + 32)%nat else code c.
Proof.
  intros c. unfold lower_char. destruct (is_upper c) eqn:E; [|reflexivity].
  unfold is_upper in E. apply andb_true_iff in E. destruct E as [_ E].
  apply Nat.leb_le in E. unfold code in *.
  apply nat_ascii_embedding. lia.
Qed.

Lemma same_code : forall a b, code a = code b -> a = b.
Proof.
  intros a b H. unfold code in H.
  rewrite <- (ascii_nat_embedding a), <- (ascii_nat_embedding b), H. reflexivity.
Qed.

Ltac code_bounds :=
  unfold caseless_char in *;
  unfold is_upper, is_lower, is_digit, is_space in *;
  repeat match goal with
         | H : (_ && _)%bool = true |- _ => apply andb_true_iff in H; destruct H
         | H : (_ && _)%bool = false |- _ => apply andb_false_iff in H; destruct H
         | H : (_ || _)%bool = true |- _ => apply orb_true_iff in H; destruct H
         | H : (_ || _)%bool = false |- _ => apply orb_false_iff in H; destruct H
         | H : negb _ = true |- _ => apply negb_true_iff in H
         | H : negb _ = false |- _ => apply negb_false_iff in H
         | H : Nat.leb _ _ = true |- _ => apply Nat.leb_le in H
         | H : Nat.leb _ _ = false |- _ => apply Nat.leb_gt in H
         end.

Lemma lower_char_not_upper : forall c, is_upper (lower_char c) = false.
Proof.
  intros c. unfold is_upper at 1. rewrite lower_char_code.
  destruct (is_upper c) eqn:E.
  - code_bounds. apply andb_false_iff. right. apply Nat.leb_gt. lia.
  - exact E.
Qed.

Lemma lower_char_idempotent : forall c, lower_char (lower_char c) = lower_char c.
Proof.
  intros c. unfold lower_char at 1. rewrite lower_char_not_upper. reflexivity.
Qed.

Lemma lower_idempotent : forall s, lower (lower s) = lower s.
Proof.
  induction s as [|c s IH]; simpl; [reflexivity|].
  rewrite lower_char_idempotent, IH. reflexivity.
Qed.

Lemma is_digit_lower_char : forall c, is_digit (lower_char c) = is_digit c.
Proof.
  intros c. unfold is_digit. rewrite lower_char_code.
  destruct (is_upper c) eqn:E; [|reflexivity].
  code_bounds.
  replace (Nat.leb (code c + 32) 57) with false by (symmetry; apply Nat.leb_gt; lia).
  replace (Nat.leb (code c) 57) with false by (symmetry; apply Nat.leb_gt; lia).
  rewrite !andb_false_r. reflexivity.
Qed.

Lemma is_space_lower_char : forall c, is_space (lower_char c) = is_space c.
Proof.
  intros c. unfold is_space. rewrite lower_char_code.
  destruct (is_upper c) eqn:E; [|reflexivity].
  code_bounds.
  replace (Nat.leb (code c + 32) 13) with false by (symmetry; apply Nat.leb_gt; lia).
  replace (Nat.leb (code c) 13) with false by (symmetry; apply Nat.leb_gt; lia).
  replace (Nat.leb (code c + 32) 32) with false by (symmetry; apply Nat.leb_gt; lia).
  replace (Nat.leb (code c) 32) with false by (symmetry; apply Nat.leb_gt; lia).
  rewrite !andb_false_r. reflexivity.
Qed.

Lemma lower_char_digit : forall c, is_digit c = true -> lower_char c = c.
Proof.
  intros c H. unfold lower_char.
  rewrite (StrFacts.digits_not_upper c H). reflexivity.
Qed.

Lemma eqb_lower_char :
  forall a c, caseless_char a = true -> Ascii.eqb a (lower_char c) = Ascii.eqb a c.
Proof.
  intros a c Ha.
  destruct (is_upper c) eqn:E; [|unfold lower_char; rewrite E; reflexivity].
  assert (H1 : Ascii.eqb a (lower_char c) = false).
  { apply Ascii.eqb_neq. intros Heq.
    assert (Hc : code a = (code c + 32)%nat) by (rewrite Heq, lower_char_code, E; reflexivity).
    code_bounds; lia. }
  assert (H2 : Ascii.eqb a c = false).
  { apply Ascii.eqb_neq. intros Heq. subst a. code_bounds; lia. }
  rewrite H1, H2. reflexivity.
Qed.

Lemma startswith_lower :
  forall needle s,
    caseless_text needle = true -> startswith needle (lower s) = startswith needle s.
Proof.
  induction needle as [|a needle IH]; intros s H; [reflexivity|].
  simpl in H. apply andb_true_iff in H. destruct H as [Ha Hn].
  destruct s as [|c s]; [reflexivity|].
  cbn [lower startswith]. rewrite eqb_lower_char, IH by assumption. reflexivity.
Qed.

Lemma contains_lower :
  forall needle s,
    caseless_text needle = true -> contains needle (lower s) = contains needle s.
Proof.
  intros needle s H. induction s as [|c s IH].
  - reflexivity.
  - change (lower (String c s)) with (String (lower_char c) (lower s)).
    cbn [contains].
    change (String (lower_char c) (lower s)) with (lower (String c s)).
    rewrite startswith_lower, IH by assumption. reflexivity.
Qed.

Lemma digit_runs_lower :
  forall s run, Re.digit_runs run (lower s) = Re.digit_runs run s.
Proof.
  induction s as [|c s IH]; intros run; [reflexivity|].
  cbn [lower Re.digit_runs]. rewrite is_digit_lower_char.
  destruct (is_digit c) eqn:E.
  - rewrite (lower_char_digit c E), IH. reflexivity.
  - destruct run; rewrite IH; reflexivity.
Qed.

Lemma findall_digits_lower : forall s, Re.findall_digits (lower s) = Re.findall_digits s.
Proof. intros s. apply digit_runs_lower. Qed.

Lemma caseless_seq : forall r1 r2, caseless r1 -> caseless r2 -> caseless (Re.seq r1 r2).
Proof.
  intros r1 r2 H1 H2. destruct r1; destruct r2; simpl in *; auto.
Qed.

Lemma caseless_alt : forall r1 r2, caseless r1 -> caseless r2 -> caseless (Re.alt r1 r2).
Proof.
  intros r1 r2 H1 H2. destruct r1; destruct r2; simpl in *; auto.
Qed.

Lemma caseless_deriv : forall r c, caseless r -> caseless (Re.deriv c r).
Proof.
  induction r as [| |p|r1 IH1 r2 IH2|r1 IH1 r2 IH2|r IH]; intros c H; simpl in *; auto.
  - destruct (p c); exact I.
  - destruct H as [H1 H2]. destruct (Re.nullable r1).
    + apply caseless_alt; [apply caseless_seq|]; auto.
    + apply caseless_seq; auto.
  - destruct H as [H1 H2]. apply caseless_alt; auto.
  - apply caseless_seq; auto.
Qed.

Lemma deriv_lower_char :
  forall r c, caseless r -> Re.deriv (lower_char c) r = Re.deriv c r.
Proof.
  induction r as [| |p|r1 IH1 r2 IH2|r1 IH1 r2 IH2|r IH]; intros c H; simpl in *; auto.
  - rewrite H. reflexivity.
  - destruct H as [H1 H2]. rewrite IH1, IH2 by assumption. reflexivity.
  - destruct H as [H1 H2]. rewrite IH1, IH2 by assumption. reflexivity.
  - rewrite IH by assumption. reflexivity.
Qed.

Lemma match_prefix_lower :
  forall s r, caseless r -> Re.match_prefix r (lower s) = Re.match_prefix r s.
Proof.
  induction s as [|c s IH]; intros r H; [reflexivity|].
  cbn [lower Re.match_prefix]. cbv zeta.
  rewrite deriv_lower_char by assumption.
  destruct (Re.is_fail (Re.deriv c r)); [reflexivity|].
  rewrite IH by (apply caseless_deriv; assumption). reflexivity.
Qed.

Lemma search_lower :
  forall s r, caseless r -> Re.search r (lower s) = Re.search r s.
Proof.
  intros s r H. induction s as [|c s IH]; [reflexivity|].
  change (lower (String c s)) with (String (lower_char c) (lower s)).
  cbn [Re.search].
  change (String (lower_char c) (lower s)) with (lower (String c s)).
  rewrite match_prefix_lower, IH by assumption. reflexivity.
Qed.

Lemma operator_pattern_caseless :
  forall ops, caseless_text ops = true -> caseless (Re.operator_pattern ops).
Proof.
  intros ops Hops. unfold Re.operator_pattern, Re.Plus, Re.digit, Re.space, Re.one_of.
  simpl. repeat split;
    try (intros c; apply is_digit_lower_char);
    try (intros c; apply is_space_lower_char).
  intros c. rewrite !contains_char.
  induction ops as [|a ops IH]; [reflexivity|].
  simpl in Hops. apply andb_true_iff in Hops. destruct Hops as [Ha Hops].
  cbn [occurs]. rewrite IH by assumption.
  rewrite (Ascii.eqb_sym a (lower_char c)), (Ascii.eqb_sym a c).
  rewrite !(Ascii.eqb_sym _ a). rewrite eqb_lower_char by assumption. reflexivity.
Qed.

Lemma search_add_sub_lower :
  forall s, Re.search Re.add_sub_pattern (lower s) = Re.search Re.add_sub_pattern s.
Proof.
  intros s. apply search_lower. rewrite add_sub_is_operator_pattern.
  apply operator_pattern_caseless. reflexivity.
Qed.

Lemma search_mul_div_lower :
  forall s, Re.search Re.mul_div_pattern (lower s) = Re.search Re.mul_div_pattern s.
Proof.
  intros s. apply search_lower. rewrite mul_div_is_operator_pattern.
  apply operator_pattern_caseless. reflexivity.
Qed.

(** Each handler reads its text through [lower], digits and operators. *)
Lemma math_lower :
  forall problem clock,
    solve_math_problem (lower problem) clock = solve_math_problem problem clock.
Proof.
  intros problem clock.
  unfold solve_math_problem, math_try, math_zero_over_zero, math_infinity, math_add_sub,
    math_mul_div, math_area, math_area_circle, math_area_rectangle, math_percent,
    extract_number.
  rewrite lower_idempotent, search_add_sub_lower, search_mul_div_lower, findall_digits_lower.
  rewrite (contains_lower "0/0"), (contains_lower "+"), (contains_lower "-"),
    (contains_lower "*"), (contains_lower "/"), (contains_lower "%") by reflexivity.
  reflexivity.
Qed.

Lemma physics_lower :
  forall problem clock,
    solve_physics_problem (lower problem) clock = solve_physics_problem problem clock.
Proof.
  intros. unfold solve_physics_problem. rewrite lower_idempotent. reflexivity.
Qed.

Lemma programming_lower :
  forall problem clock,
    solve_programming_problem (lower problem) clock = solve_programming_problem problem clock.
Proof.
  intros. unfold solve_programming_problem. rewrite lower_idempotent. reflexivity.
Qed.

Lemma time_date_lower :
  forall problem clock,
    solve_time_date_problem (lower problem) clock = solve_time_date_problem problem clock.
Proof.
  intros. unfold solve_time_date_problem. rewrite lower_idempotent. reflexivity.
Qed.

Lemma conversion_lower :
  forall problem clock,
    solve_conversion_problem (lower problem) clock = solve_conversion_problem problem clock.
Proof.
  intros. unfold solve_conversion_problem, extract_numbers.
  rewrite lower_idempotent, findall_digits_lower. reflexivity.
Qed.

Lemma logic_lower :
  forall problem clock,
    solve_logic_puzzle (lower problem) clock = solve_logic_puzzle problem clock.
Proof.
  intros. unfold solve_logic_puzzle. rewrite lower_idempotent. reflexivity.
Qed.

Lemma general_lower :
  forall problem clock,
    solve_general_problem (lower problem) clock = solve_general_problem problem clock.
Proof.
  intros problem clock. unfold solve_general_problem. cbv zeta.
  rewrite lower_idempotent.
  destruct (any_in math_keywords (lower problem)); [apply math_lower|].
  destruct (any_in physics_keywords (lower problem)); [apply physics_lower|].
  destruct (any_in programming_keywords (lower problem)); [apply programming_lower|].
  destruct (any_in time_date_keywords (lower problem)); [apply time_date_lower|].
  destruct (any_in conversion_keywords (lower problem)); [apply conversion_lower|].
  apply logic_lower.
Qed.

End CaseFacts.

(** X9. Two texts that differ in the case of ASCII letters only are classified
    alike and get the same result from [solve_general_problem], under the
    same clock: every test of every handler reads the lowered text, or
    characters that are not letters. *)
Theorem solver_ignores_case :
  forall problem problem' clock,
    lower problem = lower problem' ->
    classify problem = classify problem'
    /\ solve_general_problem problem clock = solve_general_problem problem' clock.
Proof.
  intros problem problem' clock H. split.
  - unfold classify. rewrite H. reflexivity.
  - rewrite <- (CaseFacts.general_lower problem), <- (CaseFacts.general_lower problem'), H.
    reflexivity.
Qed.

Lemma solver_ignores_case_witness :
  solve_general_problem "What Is The AREA of a Circle, radius 3" tuesday_afternoon
  = solve_general_problem "what is the area of a circle, radius 3" tuesday_afternoon.
Proof.
  apply (solver_ignores_case "What Is The AREA of a Circle, radius 3"
           "what is the area of a circle, radius 3" tuesday_afternoon).
  reflexivity.
Defined.

Import Shape.

(** *** The type of a Solution follows the category *)

Ltac returned_typed :=
  let H := fresh "H" in
  intros H; first [discriminate H | inversion H; reflexivity].

Lemma math_try_typed :
  forall problem d,
    math_try problem = Return (Some d) -> typed_in (category_types math) d = true.
Proof.
  intros problem d H. apply first_return_some in H. simpl in H.
  destruct H as [H|[H|[H|[H|[H|[H|[]]]]]]]; revert H.
  - unfold math_zero_over_zero. split_step; returned_typed.
  - unfold math_infinity. split_step; returned_typed.
  - unfold math_add_sub, addition_solution. cbv zeta. split_step; returned_typed.
  - unfold math_mul_div. cbv zeta. split_step; returned_typed.
  - unfold math_area, math_area_circle, math_area_rectangle, first_return. cbv zeta.
    split_step; returned_typed.
  - unfold math_percent. cbv zeta. split_step; returned_typed.
Qed.

Lemma solvers_typed :
  forall category problem clock d,
    solvers category problem clock = Return d ->
    typed_in (category_types category) d = true.
Proof.
  intros category problem clock d. destruct category; simpl solvers.
  - unfold solve_math_problem.
    destruct (math_try problem) as [[d'|]|e] eqn:E; unfold ret; intros H; inversion H; subst.
    + eapply math_try_typed. exact E.
    + reflexivity.
    + reflexivity.
  - unfold solve_physics_problem, ret. cbv zeta. split_step; returned_typed.
  - unfold solve_programming_problem, ret. cbv zeta. split_step; returned_typed.
  - unfold solve_logic_puzzle, ret. split_step; returned_typed.
  - unfold solve_time_date_problem, bind, datetime_now, ret. split_step; returned_typed.
  - unfold solve_conversion_problem, lift, ret, to_fahrenheit, to_celsius. cbv zeta.
    destruct (contains "celsius to fahrenheit" (lower problem)).
    + destruct (extract_numbers problem); [returned_typed|].
      split_step; returned_typed.
    + destruct (contains "fahrenheit to celsius" (lower problem)); [|returned_typed].
      destruct (extract_numbers problem); [returned_typed|].
      split_step; returned_typed.
Qed.

Lemma typed_in_spec :
  forall types d,
    typed_in types d = true -> exists t, get d "type" = Some (VStr t) /\ In t types.
Proof.
  intros types d H. unfold typed_in in H.
  destruct (get d "type") as [[t|n|x]|]; try discriminate.
  exists t. split; [reflexivity|].
  apply existsb_exists in H. destruct H as (t' & Hin & Heq).
  apply String.eqb_eq in Heq. subst t'. exact Hin.
Qed.



(** X11. A text without [convert], [feet to meters] and [celsius to fahrenheit]
    never gets a Solution of type [conversion]: 'fahrenheit to celsius 32'
    alone is answered by the logic handler, though the conversion handler
    knows that phrase. *)
Theorem conversion_needs_its_keyword :
  forall problem clock d,
    any_in conversion_keywords (lower problem) = false ->
    solve_general_problem problem clock = Return d ->
    get d "type" <> Some (VStr "conversion").
Proof.
  intros problem clock d Hkw H.
  assert (Hcat : classify problem <> conversion).
  { unfold classify, priority, first_hit. rewrite Hkw.
    destruct (any_in math_keywords (lower problem)); [discriminate|].
    destruct (any_in physics_keywords (lower problem)); [discriminate|].
    destruct (any_in programming_keywords (lower problem)); [discriminate|].
    destruct (any_in time_date_keywords (lower problem)); discriminate. }
  rewrite dispatch_by_category in H. apply solvers_typed in H. apply typed_in_spec in H.
  destruct H as (t & Ht & Hin). rewrite Ht. intros Heq. inversion Heq; subst t.
  destruct (classify problem); simpl in Hin;
    repeat (destruct Hin as [Hin|Hin]; [discriminate Hin|]); try contradiction.
Qed.

Lemma conversion_needs_its_keyword_witness :
  contains "fahrenheit to celsius" (lower "fahrenheit to celsius 32") = true
  /\ get analytical_solution "type" <> Some (VStr "conversion").
Proof.
  split; [reflexivity|].
  apply (conversion_needs_its_keyword "fahrenheit to celsius 32" tuesday_afternoon);
    reflexivity.
Defined.

(** *** Tables scanned in order: the snippets and the puzzles *)

Lemma first_key_in_split :
  forall before key value after text,
    (forall k v, In (k, v) before -> contains k text = false) ->
    contains key text = true ->
    first_key_in (before ++ (key, value) :: after)%list text = Some (key, value).
Proof.
  induction before as [|[k v] before IH]; intros key value after text Hbefore Hkey.
  - unfold first_key_in. simpl. rewrite Hkey. reflexivity.
  - unfold first_key_in. simpl.
    rewrite (Hbefore k v) by (left; reflexivity).
    apply IH; [|exact Hkey].
    intros k' v' Hin. apply (Hbefore k' v'). right. exact Hin.
Qed.

Lemma first_key_in_none :
  forall items text,
    (forall k v, In (k, v) items -> contains k text = false) ->
    first_key_in items text = None.
Proof.
  induction items as [|[k v] items IH]; intros text H; [reflexivity|].
  unfold first_key_in. simpl.
  rewrite (H k v) by (left; reflexivity).
  apply IH. intros k' v' Hin. apply (H k' v'). right. exact Hin.
Qed.





(** X14. The logic handler answers the response of the first key of its table
    that occurs in the lowered text, and 'Analytical solution' when none
    does. *)
Theorem logic_returns_first_puzzle :
  forall problem clock,
    (forall before key response after,
        puzzles = (before ++ (key, response) :: after)%list ->
        contains key (lower problem) = true ->
        (forall k v, In (k, v) before -> contains k (lower problem) = false) ->
        solve_logic_puzzle problem clock
        = Return [("answer", VStr "Logical solution");
                  ("explanation", VStr response);
                  ("type", VStr "logic")])
    /\ ((forall k v, In (k, v) puzzles -> contains k (lower problem) = false) ->
        solve_logic_puzzle problem clock = Return analytical_solution).
Proof.
  intros problem clock. split.
  - intros before key response after Htable Hkey Hbefore.
    unfold solve_logic_puzzle. rewrite Htable.
    rewrite (first_key_in_split before key response after _ Hbefore Hkey). reflexivity.
  - intros H. unfold solve_logic_puzzle. rewrite (first_key_in_none _ _ H). reflexivity.
Qed.

Lemma logic_returns_first_puzzle_witness :
  solve_logic_puzzle "A riddle, or a Logic Puzzle?" tuesday_afternoon
  = Return [("answer", VStr "Logical solution");
            ("explanation", VStr "Applying logical reasoning...");
            ("type", VStr "logic")].
Proof.
  apply (proj1 (logic_returns_first_puzzle "A riddle, or a Logic Puzzle?" tuesday_afternoon)
               [("what comes next", "Analyzing the pattern...")]
               "logic puzzle" _ [("riddle", "Thinking creatively to solve...")]);
    try reflexivity.
  intros k v [H|[]]. inversion H; subst. reflexivity.
Defined.

(** *** Texts without digits, and the sign of a number *)






(** X16. [extract_numbers] never gives a negative number, and [extract_number]
    is its first element, or 1: a sign before the digits is not read, so
    -40 degrees are converted as 40. *)
Theorem extracted_numbers_are_not_negative :
  forall text,
    Forall (fun n => 0 <= n) (extract_numbers text)
    /\ 0 <= extract_number text
    /\ extract_number text = hd 1 (extract_numbers text).
Proof.
  intros text. split; [|split].
  - unfold extract_numbers. apply Forall_forall. intros n Hin.
    apply in_map_iff in Hin. destruct Hin as (run & <- & _).
    apply int_of_digits_nonneg.
  - apply extract_number_nonneg.
  - unfold extract_number, extract_numbers.
    destruct (Re.findall_digits text); reflexivity.
Qed.

Example minus_forty_is_read_as_forty :
  solve_conversion_problem "convert celsius to fahrenheit: -40" tuesday_afternoon
  = Return [("answer", VStr "104.0°F");
            ("explanation", VStr "40°C = (40 × 9/5) + 32 = 104.0°F");
            ("type", VStr "conversion")].
Proof. reflexivity. Qed.

(** *** Texts without letters *)

Lemma no_letter_occurs :
  forall s c,
    has_letter s = false -> Case.is_lower c = true -> occurs c (lower s) = false.
Proof.
  induction s as [|a s IH]; intros c H Hc; [reflexivity|].
  simpl in H. apply orb_false_iff in H. destruct H as [Ha Hs].
  apply orb_false_iff in Ha. destruct Ha as [Hup Hlow].
  cbn [lower occurs]. rewrite (IH c Hs Hc), orb_false_r.
  unfold lower_char. rewrite Hup.
  apply Ascii.eqb_neq. intros Heq. subst a. congruence.
Qed.

Lemma no_letter_lacks :
  forall s c rest,
    has_letter s = false -> Case.is_lower c = true ->
    contains (String c rest) (lower s) = false.
Proof.
  intros s c rest H Hc.
  apply StrFacts.not_occurs_not_contains. apply no_letter_occurs; assumption.
Qed.

(** X17. A text without an ASCII letter contains no keyword: it is classified
    as logic and answered 'Analytical solution', so '12 + 30' alone is not
    computed. *)
Theorem text_without_letters_is_not_solved :
  forall problem clock,
    has_letter problem = false ->
    classify problem = logic
    /\ solve_general_problem problem clock = Return analytical_solution.
Proof.
  intros problem clock H.
  assert (Hcat : classify problem = logic).
  { unfold classify, priority, first_hit, any_in,
      math_keywords, physics_keywords, programming_keywords,
      time_date_keywords, conversion_keywords.
    cbn [existsb].
    rewrite !no_letter_lacks by (assumption || reflexivity).
    reflexivity. }
  split; [exact Hcat|].
  rewrite dispatch_by_category, Hcat. simpl solvers.
  unfold solve_logic_puzzle, first_key_in, puzzles. cbn [find fst].
  rewrite !no_letter_lacks by (assumption || reflexivity).
  reflexivity.
Qed.

Lemma text_without_letters_is_not_solved_witness :
  solve_general_problem "12 + 30" tuesday_afternoon = Return analytical_solution.
Proof.
  apply (text_without_letters_is_not_solved "12 + 30" tuesday_afternoon). reflexivity.
Defined.

(* ================================================================== *)
(** ** The callers of the solver (backend/app.py) *)

Import App.

(** *** solve_problem *)

Lemma fallback_is_solution : is_solution fallback_solution = true.
Proof. reflexivity. Qed.

Lemma solve_problem_cases :
  forall bot clock user_input,
    (problem_solver bot = true
     /\ exists d, solve_general_problem user_input clock = Return d
                  /\ is_solution d = true
                  /\ solve_problem bot clock user_input = ([], d))
    \/ (problem_solver bot = false
        /\ solve_problem bot clock user_input = ([], fallback_solution))
    \/ (problem_solver bot = true
        /\ classify user_input = conversion
        /\ solve_general_problem user_input clock
           = Raise (OverflowError "integer division result too large for a float")
        /\ solve_problem bot clock user_input
           = (["❌ Error in problem solver: integer division result too large for a float"],
              fallback_solution)).
Proof.
  intros bot clock user_input. unfold solve_problem.
  destruct (problem_solver bot).
  - destruct (general_returns_or_overflows user_input clock) as [(d & Hd & Hs)|(Hc & Hr)].
    + left. split; [reflexivity|]. exists d. rewrite Hd. auto.
    + right. right. rewrite Hr. auto.
  - right. left. auto.
Qed.

Lemma solve_problem_solution :
  forall bot clock user_input,
    is_solution (snd (solve_problem bot clock user_input)) = true.
Proof.
  intros bot clock user_input.
  destruct (solve_problem_cases bot clock user_input)
    as [(_ & d & _ & Hs & ->)|[(_ & ->)|(_ & _ & _ & ->)]]; auto.
Qed.


(** *** process_message *)

Lemma is_solution_items :
  forall d, is_solution d = true ->
    exists answer explanation type,
      get d "answer" = Some answer
      /\ get d "explanation" = Some (VStr explanation)
      /\ get d "type" = Some (VStr type).
Proof.
  intros d H. unfold is_solution in H.
  destruct (get d "answer") as [answer|]; [|discriminate].
  destruct (get d "explanation") as [[explanation| |]|]; try discriminate.
  destruct (get d "type") as [[type| |]|]; try discriminate.
  exists answer, explanation, type. auto.
Qed.

Lemma problem_reply_done :
  forall sentiment confidence d answer explanation type,
    get d "answer" = Some answer ->
    get d "explanation" = Some (VStr explanation) ->
    get d "type" = Some (VStr type) ->
    problem_reply sentiment confidence d
    = Done [("response", JStr ("🤔 " ++ format_value answer ++ newline
                               ++ "💡 " ++ explanation));
            ("type", JStr ("problem_solution_" ++ type));
            ("sentiment", JStr sentiment);
            ("confidence", JFloat (round_to 2 confidence));
            ("solution_details", json_of_dict d)].
Proof.
  intros sentiment confidence d answer explanation type Ha He Ht.
  unfold problem_reply, solution_item. rewrite Ha, He, Ht. reflexivity.
Qed.

(** The problem block of [process_message], when it is entered. *)
Lemma process_message_problem :
  forall bot draw draw' clock user_input,
    any_in problem_keywords (lower user_input) = true ->
    problem_solver bot = true ->
    exists answer explanation type,
      let solution := snd (solve_problem bot clock user_input) in
      let mood := snd (analyze_sentiment bot user_input) in
      get solution "answer" = Some answer
      /\ get solution "explanation" = Some (VStr explanation)
      /\ get solution "type" = Some (VStr type)
      /\ process_message bot draw draw' clock user_input
         = ((fst (analyze_sentiment bot user_input)
             ++ fst (solve_problem bot clock user_input))%list,
            Done [("response", JStr ("🤔 " ++ format_value answer ++ newline
                                     ++ "💡 " ++ explanation));
                  ("type", JStr ("problem_solution_" ++ type));
                  ("sentiment", JStr (fst mood));
                  ("confidence", JFloat (round_to 2 (snd mood)));
                  ("solution_details", json_of_dict solution)]).
Proof.
  intros bot draw draw' clock user_input Hkw Hsolver.
  destruct (is_solution_items _ (solve_problem_solution bot clock user_input))
    as (answer & explanation & type & Ha & He & Ht).
  exists answer, explanation, type. cbv zeta.
  split; [exact Ha|]. split; [exact He|]. split; [exact Ht|].
  unfold process_message, then_.
  destruct (analyze_sentiment bot user_input) as [lines [sentiment confidence]].
  rewrite Hkw, Hsolver. cbn [andb fst snd].
  destruct (solve_problem bot clock user_input) as [lines' solution].
  cbn [fst snd] in *.
  rewrite (problem_reply_done _ _ _ _ _ _ Ha He Ht).
  unfold quiet. rewrite app_nil_r. reflexivity.
Qed.



Lemma any_in_hit :
  forall keywords keyword text,
    In keyword keywords -> contains keyword text = true -> any_in keywords text = true.
Proof.
  intros keywords keyword text Hin Hc. unfold any_in.
  apply existsb_exists. exists keyword. auto.
Qed.

(** X20. [solve], [calculate] and [what is] are problem keywords of the bot and
    math keywords of the solver: a message with one of them is answered by
    the math handler, whatever it asks, with a type [problem_solution_]
    followed by [mathematics], [arithmetic], [geometry] or [error]. *)
Theorem calculation_words_give_a_math_answer :
  forall bot draw draw' clock user_input keyword,
    In keyword ["solve"; "calculate"; "what is"] ->
    contains keyword (lower user_input) = true ->
    problem_solver bot = true ->
    exists solution type fields,
      solve_math_problem user_input clock = Return solution
      /\ get solution "type" = Some (VStr type)
      /\ In type ["mathematics"; "arithmetic"; "geometry"; "error"]
      /\ snd (process_message bot draw draw' clock user_input) = Done fields
      /\ lookup fields "type" = Some (JStr ("problem_solution_" ++ type))
      /\ lookup fields "solution_details" = Some (json_of_dict solution).
Proof.
  intros bot draw draw' clock user_input keyword Hin Hc Hsolver.
  assert (Hproblem : any_in problem_keywords (lower user_input) = true).
  { apply (any_in_hit _ keyword); [|exact Hc].
    simpl in Hin. simpl. intuition. }
  assert (Hmath : any_in math_keywords (lower user_input) = true).
  { apply (any_in_hit _ keyword); [|exact Hc].
    simpl in Hin. simpl. intuition. }
  destruct (math_returns_solution user_input clock) as (solution & Hd & _).
  assert (Hgeneral : solve_general_problem user_input clock = Return solution).
  { unfold solve_general_problem. cbv zeta. rewrite Hmath. exact Hd. }
  assert (Hwrap : solve_problem bot clock user_input = ([], solution)).
  { unfold solve_problem. rewrite Hsolver, Hgeneral. reflexivity. }
  pose proof (solvers_typed math user_input clock solution Hd) as Ht.
  apply typed_in_spec in Ht. destruct Ht as (type & Ht & Htin).
  destruct (process_message_problem bot draw draw' clock user_input Hproblem Hsolver)
    as (answer & explanation & type' & _ & _ & Ht' & Heq).
  cbv zeta in Ht', Heq. rewrite Hwrap in Ht', Heq. cbn [fst snd] in Ht', Heq.
  rewrite Ht in Ht'. inversion Ht'; subst type'.
  exists solution, type. eexists.
  split; [exact Hd|]. split; [exact Ht|]. split; [exact Htin|].
  rewrite Heq. cbn [snd]. split; [reflexivity|]. split; reflexivity.
Qed.

Lemma calculation_words_give_a_math_answer_witness :
  exists solution type fields,
    solve_math_problem "What is the time in Tokyo?" tuesday_afternoon = Return solution
    /\ get solution "type" = Some (VStr type)
    /\ In type ["mathematics"; "arithmetic"; "geometry"; "error"]
    /\ snd (process_message (bare_bot (fun _ => Failed "not fitted"))
              (fun _ => 0%nat) (fun _ => 0%nat) tuesday_afternoon
              "What is the time in Tokyo?") = Done fields
    /\ lookup fields "type" = Some (JStr ("problem_solution_" ++ type))
    /\ lookup fields "solution_details" = Some (json_of_dict solution).
Proof.
  apply (calculation_words_give_a_math_answer (bare_bot (fun _ => Failed "not fitted"))
           (fun _ => 0%nat) (fun _ => 0%nat) tuesday_afternoon
           "What is the time in Tokyo?" "what is").
  - simpl. auto.
  - reflexivity.
  - reflexivity.
Defined.

(** *** The conversation path *)

Lemma choice_in :
  forall (A : Type) (draw : nat -> nat) (seq : list A),
    seq <> [] -> exists x, choice draw seq = Done x /\ In x seq.
Proof.
  intros A draw seq Hne. unfold choice.
  destruct seq as [|a seq]; [contradiction|].
  set (xs := a :: seq) in *.
  assert (Hlt : (draw (List.length xs) mod List.length xs < List.length xs)%nat).
  { apply Nat.mod_upper_bound. subst xs. discriminate. }
  destruct (nth_error xs (draw (List.length xs) mod List.length xs)%nat) as [x|] eqn:E.
  - exists x. split; [reflexivity|]. eapply nth_error_In. exact E.
  - apply nth_error_None in E. lia.
Qed.

Lemma choice_empty :
  forall (A : Type) (draw : nat -> nat),
    choice draw (@nil A) = Failed "Cannot choose from an empty sequence".
Proof. reflexivity. Qed.

Lemma canned_not_empty :
  forall response, In response canned_responses -> is_empty response = false.
Proof.
  intros response H. simpl in H.
  repeat (destruct H as [<-|H]; [reflexivity|]). contradiction.
Qed.

Lemma falsy_false :
  forall r, falsy r = false -> exists s, r = Some s /\ is_empty s = false.
Proof.
  intros [s|] H; [|discriminate]. exists s. auto.
Qed.

(** What [process_message] returns after the problem block. *)
Lemma converse_kinds :
  forall bot draw draw' user_input sentiment confidence,
    exists response kind,
      snd (converse bot draw draw' user_input sentiment confidence)
      = Done (reply response kind sentiment confidence)
      /\ is_empty response = false
      /\ ((kind = "rule_based"
           /\ snd (get_rule_based_response bot draw user_input) = Some response)
          \/ (kind = "ai_generated"
              /\ falsy (snd (get_rule_based_response bot draw user_input)) = true
              /\ generator bot <> None
              /\ snd (get_ai_response bot user_input) = Some response)
          \/ (kind = "fallback" /\ In response canned_responses)).
Proof.
  intros bot draw draw' user_input sentiment confidence.
  assert (Hcanned : canned_responses <> []) by discriminate.
  destruct (choice_in _ draw' canned_responses Hcanned) as (canned & Hchoice & Hin).
  unfold converse, then_.
  destruct (get_rule_based_response bot draw user_input) as [lines rule]. cbn [snd].
  destruct (falsy rule) eqn:Hrule.
  - destruct (generator bot) as [generate|] eqn:Hgen; cbn [andb].
    + destruct (get_ai_response bot user_input) as [lines' generated]. cbn [snd quiet].
      destruct (falsy generated) eqn:Hai.
      * cbn [snd]. rewrite Hchoice. exists canned, "fallback".
        split; [reflexivity|]. split; [apply canned_not_empty, Hin|]. auto.
      * cbn [snd]. apply falsy_false in Hai. destruct Hai as (s & -> & Hs).
        exists s, "ai_generated". split; [reflexivity|]. split; [exact Hs|].
        right. left. repeat split; auto. discriminate.
    + cbn [quiet]. rewrite Hrule. cbn [snd]. rewrite Hchoice.
      exists canned, "fallback".
      split; [reflexivity|]. split; [apply canned_not_empty, Hin|]. auto.
  - cbn [andb quiet]. rewrite Hrule. cbn [snd].
    apply falsy_false in Hrule. destruct Hrule as (s & -> & Hs).
    exists s, "rule_based". split; [reflexivity|]. split; [exact Hs|]. auto.
Qed.

Lemma process_message_converse :
  forall bot draw draw' clock user_input,
    (any_in problem_keywords (lower user_input) && problem_solver bot)%bool = false ->
    snd (process_message bot draw draw' clock user_input)
    = snd (converse bot draw draw' user_input
             (fst (snd (analyze_sentiment bot user_input)))
             (snd (snd (analyze_sentiment bot user_input)))).
Proof.
  intros bot draw draw' clock user_input H.
  unfold process_message, then_.
  destruct (analyze_sentiment bot user_input) as [lines [sentiment confidence]].
  rewrite H. cbn [fst snd].
  destruct (converse bot draw draw' user_input sentiment confidence). reflexivity.
Qed.

(** X21. Outside the problem block, [process_message] returns a response that
    is not empty and its kind: [rule_based] with the response of the index,
    [ai_generated] with the text of the generator when the index gave none,
    [fallback] with one of the five canned sentences otherwise. *)
Theorem conversation_reply_kinds :
  forall bot draw draw' clock user_input,
    any_in problem_keywords (lower user_input) = false \/ problem_solver bot = false ->
    exists response kind,
      snd (process_message bot draw draw' clock user_input)
      = Done (reply response kind
                (fst (snd (analyze_sentiment bot user_input)))
                (snd (snd (analyze_sentiment bot user_input))))
      /\ is_empty response = false
      /\ ((kind = "rule_based"
           /\ snd (get_rule_based_response bot draw user_input) = Some response)
          \/ (kind = "ai_generated"
              /\ falsy (snd (get_rule_based_response bot draw user_input)) = true
              /\ generator bot <> None
              /\ snd (get_ai_response bot user_input) = Some response)
          \/ (kind = "fallback" /\ In response canned_responses)).
Proof.
  intros bot draw draw' clock user_input H.
  rewrite process_message_converse.
  - apply converse_kinds.
  - destruct H as [-> | ->]; [reflexivity|apply andb_false_r].
Qed.

Lemma conversation_reply_kinds_witness :
  exists response kind,
    snd (process_message (bare_bot (fun _ => Done (0%nat, nine_tenths)))
           (fun _ => 1%nat) (fun _ => 0%nat) tuesday_afternoon "hello there")
    = Done (reply response kind "NEUTRAL" half)
    /\ is_empty response = false
    /\ ((kind = "rule_based"
         /\ snd (get_rule_based_response (bare_bot (fun _ => Done (0%nat, nine_tenths)))
                   (fun _ => 1%nat) "hello there") = Some response)
        \/ (kind = "ai_generated"
            /\ falsy (snd (get_rule_based_response
                             (bare_bot (fun _ => Done (0%nat, nine_tenths)))
                             (fun _ => 1%nat) "hello there")) = true
            /\ generator (bare_bot (fun _ => Done (0%nat, nine_tenths))) <> None
            /\ snd (get_ai_response (bare_bot (fun _ => Done (0%nat, nine_tenths)))
                      "hello there") = Some response)
        \/ (kind = "fallback" /\ In response canned_responses)).
Proof.
  apply (conversation_reply_kinds (bare_bot (fun _ => Done (0%nat, nine_tenths)))
           (fun _ => 1%nat) (fun _ => 0%nat) tuesday_afternoon "hello there").
  left. reflexivity.
Defined.

Example hello_there_is_answered_by_rule :
  process_message (bare_bot (fun _ => Done (0%nat, nine_tenths)))
    (fun _ => 1%nat) (fun _ => 0%nat) tuesday_afternoon "hello there"
  = ([], Done (reply "Hi there!" "rule_based" "NEUTRAL" half)).
Proof. reflexivity. Qed.

Lemma problem_response_not_empty :
  forall answer explanation,
    is_empty ("🤔 " ++ answer ++ newline ++ "💡 " ++ explanation) = false.
Proof. reflexivity. Qed.

(** X22. [process_message] never raises: on every message it returns a dict
    with a response that is not empty, a type, the sentiment and the
    confidence rounded to two places; [solution_details] is there exactly
    with the types [problem_solution_...]. *)
Theorem process_message_always_replies :
  forall bot draw draw' clock user_input,
    exists fields response kind sentiment confidence,
      snd (process_message bot draw draw' clock user_input) = Done fields
      /\ lookup fields "response" = Some (JStr response)
      /\ is_empty response = false
      /\ lookup fields "type" = Some (JStr kind)
      /\ lookup fields "sentiment" = Some (JStr sentiment)
      /\ lookup fields "confidence" = Some (JFloat (round_to 2 confidence))
      /\ snd (analyze_sentiment bot user_input) = (sentiment, confidence)
      /\ ((exists type, kind = "problem_solution_" ++ type
                        /\ lookup fields "solution_details"
                           = Some (json_of_dict (snd (solve_problem bot clock user_input))))
          \/ (In kind ["rule_based"; "ai_generated"; "fallback"]
              /\ lookup fields "solution_details" = None)).
Proof.
  intros bot draw draw' clock user_input.
  destruct (any_in problem_keywords (lower user_input) && problem_solver bot)%bool eqn:E.
  - apply andb_true_iff in E. destruct E as [Hkw Hsolver].
    destruct (process_message_problem bot draw draw' clock user_input Hkw Hsolver)
      as (answer & explanation & type & _ & _ & _ & Heq).
    cbv zeta in Heq. rewrite Heq. cbn [snd].
    destruct (analyze_sentiment bot user_input) as [lines [sentiment confidence]].
    cbn [fst snd].
    eexists. exists ("🤔 " ++ format_value answer ++ newline ++ "💡 " ++ explanation),
      ("problem_solution_" ++ type), sentiment, confidence.
    split; [reflexivity|]. split; [reflexivity|].
    split; [apply problem_response_not_empty|].
    split; [reflexivity|]. split; [reflexivity|]. split; [reflexivity|].
    split; [reflexivity|]. left. exists type. split; reflexivity.
  - rewrite (process_message_converse _ _ _ _ _ E).
    destruct (analyze_sentiment bot user_input) as [lines [sentiment confidence]].
    cbn [fst snd].
    destruct (converse_kinds bot draw draw' user_input sentiment confidence)
      as (response & kind & Heq & Hne & Hkind).
    rewrite Heq. eexists. exists response, kind, sentiment, confidence.
    split; [reflexivity|]. split; [reflexivity|]. split; [exact Hne|].
    split; [reflexivity|]. split; [reflexivity|]. split; [reflexivity|].
    split; [reflexivity|]. right. split; [|reflexivity].
    simpl. destruct Hkind as [(-> & _)|[(-> & _)|(-> & _)]]; auto.
Qed.

(** *** load_training_data and get_rule_based_response *)

Lemma collect_lengths :
  forall intents,
    List.length (fst (collect intents)) = List.length (snd (collect intents)).
Proof.
  induction intents as [|it intents IH]; [reflexivity|].
  cbn [collect]. destruct (collect intents) as [patterns responses].
  cbn [fst snd] in *. rewrite !length_app, length_map, IH. reflexivity.
Qed.

Lemma collect_aligned :
  forall intents i pattern,
    nth_error (fst (collect intents)) i = Some pattern ->
    exists it,
      In it intents /\ In pattern (intent_patterns it)
      /\ nth_error (snd (collect intents)) i = Some (intent_responses it).
Proof.
  induction intents as [|it intents IH]; intros i pattern H.
  - destruct i; discriminate H.
  - cbn [collect] in *. destruct (collect intents) as [patterns responses].
    cbn [fst snd] in *.
    destruct (Nat.ltb_spec i (List.length (intent_patterns it))) as [Hlt|Hge].
    + rewrite nth_error_app1 in H by exact Hlt.
      exists it. split; [left; reflexivity|]. split; [eapply nth_error_In; exact H|].
      rewrite nth_error_app1 by (rewrite length_map; exact Hlt).
      rewrite nth_error_map, H. reflexivity.
    + rewrite nth_error_app2 in H by exact Hge.
      destruct (IH _ _ H) as (it' & Hin & Hp & Hr).
      exists it'. split; [right; exact Hin|]. split; [exact Hp|].
      rewrite nth_error_app2 by (rewrite length_map; exact Hge).
      rewrite length_map. exact Hr.
Qed.

(** X23. After [load_training_data] on a readable file, [patterns] and
    [responses] have one length, and the entry of [responses] at the index
    of a pattern is the response list of an intent that has this pattern. *)
Theorem training_data_is_aligned :
  forall intents i pattern,
    nth_error (fst (snd (load_training_data (Intents intents)))) i = Some pattern ->
    exists it,
      In it intents /\ In pattern (intent_patterns it)
      /\ nth_error (snd (snd (load_training_data (Intents intents)))) i
         = Some (intent_responses it)
      /\ List.length (fst (snd (load_training_data (Intents intents))))
         = List.length (snd (snd (load_training_data (Intents intents))))
      /\ fst (load_training_data (Intents intents)) = [].
Proof.
  intros intents i pattern H. cbn [load_training_data quiet fst snd] in *.
  destruct (collect_aligned intents i pattern H) as (it & Hin & Hp & Hr).
  exists it. repeat split; auto. apply collect_lengths.
Qed.

Lemma training_data_is_aligned_witness :
  exists it,
    In it [greeting; farewell] /\ In "bye" (intent_patterns it)
    /\ nth_error (snd (snd (load_training_data (Intents [greeting; farewell])))) 2
       = Some (intent_responses it)
    /\ List.length (fst (snd (load_training_data (Intents [greeting; farewell]))))
       = List.length (snd (snd (load_training_data (Intents [greeting; farewell]))))
    /\ fst (load_training_data (Intents [greeting; farewell])) = [].
Proof.
  apply (training_data_is_aligned [greeting; farewell] 2 "bye"). reflexivity.
Defined.

Lemma init_data :
  forall file analyzer gen imported train,
    patterns (snd (init file analyzer gen imported train))
    = fst (snd (load_training_data file))
    /\ responses (snd (init file analyzer gen imported train))
       = snd (snd (load_training_data file))
    /\ tfidf_matrix (snd (init file analyzer gen imported train))
       = match train (fst (snd (load_training_data file))) with
         | Done best => Some best
         | Failed _ => None
         end.
Proof.
  intros file analyzer gen imported train. unfold init, then_.
  destruct (load_training_data file) as [lines [ps rs]]. cbn [fst snd].
  destruct analyzer, gen, (train ps); cbn; auto.
Qed.

(** X24. When the training file is missing or unreadable, [patterns] has three
    entries and [responses] one: a message whose best match is the first
    pattern gets one of the three greetings, and a message whose best match
    is 'hi' or 'how are you' gets no rule-based response, the [IndexError]
    being printed. *)
Theorem fallback_data_answers_the_first_pattern_only :
  forall file analyzer gen imported train best draw user_input i similarity,
    file = NotFound \/ (exists message, file = Unreadable message) ->
    train fallback_patterns = Done best ->
    best user_input = Done (i, similarity) ->
    greater similarity three_tenths = true ->
    let bot := snd (init file analyzer gen imported train) in
    patterns bot = ["hello"; "hi"; "how are you"]
    /\ match i with
       | O =>
           exists response,
             In response ["Hello!"; "Hi there!"; "Hey!"]
             /\ get_rule_based_response bot draw user_input = ([], Some response)
       | S _ =>
           get_rule_based_response bot draw user_input
           = (["❌ Error in rule-based response: list index out of range"], None)
       end.
Proof.
  intros file analyzer gen imported train best draw user_input i similarity
    Hfile Htrain Hbest Hsim bot.
  destruct (init_data file analyzer gen imported train) as (Hp & Hr & Ht).
  fold bot in Hp, Hr, Ht.
  assert (Hdata : snd (load_training_data file) = (fallback_patterns, fallback_responses)).
  { destruct Hfile as [->|(message & ->)]; reflexivity. }
  rewrite Hdata in Hp, Hr, Ht. cbn [fst snd] in Hp, Hr, Ht. rewrite Htrain in Ht.
  split; [exact Hp|].
  unfold get_rule_based_response. rewrite Ht, Hbest, Hr. cbn [abind]. rewrite Hsim.
  destruct i as [|i].
  - cbn [item nth_error fallback_responses abind].
    destruct (choice_in _ draw ["Hello!"; "Hi there!"; "Hey!"]) as (r & Hc & Hin);
      [discriminate|].
    rewrite Hc. exists r. split; [exact Hin|reflexivity].
  - unfold item, fallback_responses. cbn [nth_error].
    destruct i; reflexivity.
Qed.

Lemma fallback_data_answers_the_first_pattern_only_witness :
  let bot := bare_bot (fun _ => Done (2%nat, nine_tenths)) in
  patterns bot = ["hello"; "hi"; "how are you"]
  /\ get_rule_based_response bot (fun _ => 0%nat) "how are you"
     = (["❌ Error in rule-based response: list index out of range"], None).
Proof.
  apply (fallback_data_answers_the_first_pattern_only NotFound
           (Failed "no model") (Failed "no model") true
           (fun _ => Done (fun _ => Done (2%nat, nine_tenths)))
           (fun _ => Done (2%nat, nine_tenths)) (fun _ => 0%nat) "how are you"
           2%nat nine_tenths).
  - left. reflexivity.
  - reflexivity.
  - reflexivity.
  - reflexivity.
Defined.

(** X25. With a readable training file, when the best match of a message is a
    pattern of similarity above 0.3, the rule-based response is one of the
    responses of an intent that has this pattern; if that intent has no
    response, there is none and the error of [random.choice] is printed. *)
Theorem rule_based_answer_is_from_the_matched_intent :
  forall intents analyzer gen imported train best draw user_input i similarity pattern,
    train (fst (collect intents)) = Done best ->
    best user_input = Done (i, similarity) ->
    greater similarity three_tenths = true ->
    nth_error (fst (collect intents)) i = Some pattern ->
    let bot := snd (init (Intents intents) analyzer gen imported train) in
    exists it,
      In it intents /\ In pattern (intent_patterns it)
      /\ ((intent_responses it = []
           /\ get_rule_based_response bot draw user_input
              = (["❌ Error in rule-based response: Cannot choose from an empty sequence"],
                 None))
          \/ (exists response,
                In response (intent_responses it)
                /\ get_rule_based_response bot draw user_input = ([], Some response))).
Proof.
  intros intents analyzer gen imported train best draw user_input i similarity pattern
    Htrain Hbest Hsim Hpattern bot.
  destruct (init_data (Intents intents) analyzer gen imported train) as (_ & Hr & Ht).
  fold bot in Hr, Ht. cbn [load_training_data quiet fst snd] in Hr, Ht.
  rewrite Htrain in Ht.
  destruct (collect_aligned intents i pattern Hpattern) as (it & Hin & Hp & Hnth).
  exists it. split; [exact Hin|]. split; [exact Hp|].
  unfold get_rule_based_response. rewrite Ht, Hbest, Hr. cbn [abind]. rewrite Hsim.
  unfold item. rewrite Hnth. cbn [abind].
  destruct (intent_responses it) as [|r rs] eqn:E.
  - left. split; reflexivity.
  - right. destruct (choice_in _ draw (r :: rs)) as (x & Hc & Hx); [discriminate|].
    rewrite Hc. exists x. split; [exact Hx|reflexivity].
Qed.

Lemma rule_based_answer_is_from_the_matched_intent_witness :
  let bot := snd (init (Intents [greeting; farewell])
                    (Failed "no model") (Failed "no model") true
                    (fun _ => Done (fun _ => Done (1%nat, nine_tenths)))) in
  exists it,
    In it [greeting; farewell] /\ In "good morning" (intent_patterns it)
    /\ ((intent_responses it = []
         /\ get_rule_based_response bot (fun _ => 3%nat) "Good morning!"
            = (["❌ Error in rule-based response: Cannot choose from an empty sequence"],
               None))
        \/ (exists response,
              In response (intent_responses it)
              /\ get_rule_based_response bot (fun _ => 3%nat) "Good morning!"
                 = ([], Some response))).
Proof.
  apply (rule_based_answer_is_from_the_matched_intent [greeting; farewell]
           (Failed "no model") (Failed "no model") true
           (fun _ => Done (fun _ => Done (1%nat, nine_tenths)))
           (fun _ => Done (1%nat, nine_tenths)) (fun _ => 3%nat) "Good morning!"
           1%nat nine_tenths "good morning"); reflexivity.
Defined.

(** *** The routes *)












(** The overflow of the conversion handler is answered with status 200 and
    the stand-in Solution. *)
Example solve_route_on_an_overflowing_conversion :
  solve_route (Enhanced (bare_bot (fun _ => Failed "not fitted")))
    (Done (JObject [("problem", JStr ("celsius to fahrenheit " ++ one_and_zeros 400))]))
    tuesday_afternoon new_year_midnight
  = (["❌ Error in problem solver: integer division result too large for a float"],
     (JObject [("problem", JStr ("celsius to fahrenheit " ++ one_and_zeros 400));
               ("solution", json_of_dict fallback_solution);
               ("timestamp", JStr "2027-01-01 00:00:00")], 200)).
Proof. vm_compute. reflexivity. Qed.




Example chat_route_on_a_calculation :
  chat_route (Enhanced (bare_bot (fun _ => Failed "not fitted")))
    (fun _ => 0%nat) (fun _ => 0%nat)
    (Done (JObject [("message", JStr "What is 20% of 50?")]))
    tuesday_afternoon new_year_midnight
  = ([],
     (JObject [("user_message", JStr "What is 20% of 50?");
               ("bot_response",
                JStr ("🤔 40.0%" ++ newline ++ "💡 Percentage: (20 ÷ 50) × 100 = 40.0%"));
               ("response_type", JStr "problem_solution_mathematics");
               ("sentiment", JStr "NEUTRAL");
               ("confidence", JFloat half);
               ("timestamp", JStr "2027-01-01 00:00:00");
               ("solution_details",
                JObject [("answer", JStr "40.0%");
                         ("explanation", JStr "Percentage: (20 ÷ 50) × 100 = 40.0%");
                         ("type", JStr "mathematics")])], 200)).
Proof. vm_compute. reflexivity. Qed.


